(** * Self-restart supervisor: the three variants of the repository

    - [Restart1]: src/restart-1.py, calendar-time trigger (APScheduler date
      job at 23:30 Europe/London), request gate, manual trigger, configure.
    - [Restart2]: src/restart-2.py, fixed-interval trigger driven by a
      sleeping background thread, manual trigger, configure.
    - [Restart3]: src/restart-3-graceful+forced.py, external watchdog that
      locates the uvicorn process, terminates it and relaunches it.

    Python globals become fields of a state record, functions that mutate
    them become computations in a state-and-exception monad (an exception
    keeps the mutations done before it was raised, as in Python), clock
    readings are explicit arguments. *)

From Stdlib Require Import ZArith List String Ascii Bool Lia.
Import ListNotations.
Open Scope string_scope.
Open Scope list_scope.
Open Scope Z_scope.

(** ** Signals, exceptions, results *)

Inductive Signal : Type := SIGTERM | SIGKILL.

Definition Signal_eqb (a b : Signal) : bool :=
  match a, b with
  | SIGTERM, SIGTERM | SIGKILL, SIGKILL => true
  | _, _ => false
  end.

Inductive Exn : Type :=
| NameError (name : string)
| OverflowError
| ProcessLookupError
| PermissionError
| OSError
| ValueError.

Inductive Result (A : Type) : Type :=
| Ok (a : A)
| Raise (e : Exn).
Arguments Ok {A} a.
Arguments Raise {A} e.

(** ** State-and-exception monad *)

Module Eff.
Section WithState.
Context {St : Type}.

Definition M (A : Type) : Type := St -> Result A * St.

Definition ret {A} (a : A) : M A := fun s => (Ok a, s).

Definition bind {A B} (m : M A) (k : A -> M B) : M B :=
  fun s => match m s with
           | (Ok a, s') => k a s'
           | (Raise e, s') => (Raise e, s')
           end.

Definition raise {A} (e : Exn) : M A := fun s => (Raise e, s).

Definition get : M St := fun s => (Ok s, s).

Definition modify (f : St -> St) : M unit := fun s => (Ok tt, f s).

(** [try: m except e: h e] *)
Definition try_except {A} (m : M A) (h : Exn -> M A) : M A :=
  fun s => match m s with
           | (Ok a, s') => (Ok a, s')
           | (Raise e, s') => h e s'
           end.

(** A pure computation that may raise. *)
Definition lift {A} (r : Result A) : M A := fun s => (r, s).
End WithState.
End Eff.

Declare Scope eff_scope.
Delimit Scope eff_scope with eff.
Notation "x <- m ;; k" := (Eff.bind m (fun x => k))
  (at level 61, m at next level, right associativity) : eff_scope.
Notation "m ;; k" := (Eff.bind m (fun _ => k))
  (at level 61, right associativity) : eff_scope.

(** ** Name resolution in a module namespace

    A global name is bound iff the module imports or defines it; loading an
    unbound name raises [NameError]. *)

Definition load_name {St} (namespace : list string) (name : string) : @Eff.M St unit :=
  if existsb (String.eqb name) namespace then Eff.ret tt
  else Eff.raise (NameError name).

(** ** Python [datetime] values

    The calendar date is kept as its proleptic Gregorian ordinal
    ([date.toordinal]); [tzinfo] is the fixed UTC offset, in seconds, of the
    pytz tzinfo instance the value carries. *)

Record datetime : Type := mkdt {
  ordinal : Z;
  hour : Z;
  minute : Z;
  second : Z;
  microsecond : Z;
  tzinfo : Z
}.

Definition MINORDINAL : Z := 1.
Definition MAXORDINAL : Z := 3652059. (* 9999-12-31 *)

Definition dt_valid (d : datetime) : Prop :=
  MINORDINAL <= ordinal d <= MAXORDINAL /\
  0 <= hour d < 24 /\ 0 <= minute d < 60 /\
  0 <= second d < 60 /\ 0 <= microsecond d < 1000000.

Definition DAY_US : Z := 86400000000.

(** Microseconds of the wall-clock reading since ordinal 0, midnight. *)
Definition naive_micro (d : datetime) : Z :=
  (((ordinal d * 24 + hour d) * 60 + minute d) * 60 + second d) * 1000000
  + microsecond d.

(** Microseconds of the instant, on the UTC axis. *)
Definition utc_micro (d : datetime) : Z := naive_micro d - tzinfo d * 1000000.

Definition of_micro (us tz : Z) : datetime :=
  {| ordinal := us / DAY_US;
     hour := (us / 3600000000) mod 24;
     minute := (us / 60000000) mod 60;
     second := (us / 1000000) mod 60;
     microsecond := us mod 1000000;
     tzinfo := tz |}.

(** [a >= b] on aware datetimes: with the same tzinfo the base datetimes are
    compared, otherwise the UTC instants. *)
Definition dt_ge (a b : datetime) : bool :=
  if tzinfo a =? tzinfo b then naive_micro b <=? naive_micro a
  else utc_micro b <=? utc_micro a.

(** [d + timedelta]: wall-clock arithmetic that keeps the tzinfo; a date
    outside [MINORDINAL..MAXORDINAL] raises [OverflowError]. *)
Definition dt_add (d : datetime) (delta_us : Z) : Result datetime :=
  let r := of_micro (naive_micro d + delta_us) (tzinfo d) in
  if (MINORDINAL <=? ordinal r) && (ordinal r <=? MAXORDINAL) then Ok r
  else Raise OverflowError.

Definition timedelta_days (n : Z) : Z := n * DAY_US.
Definition timedelta_hours (n : Z) : Z := n * 3600000000.

(** [d.replace(hour=h, minute=m, second=0, microsecond=0)] *)
Definition dt_replace_hm (d : datetime) (h m : Z) : datetime :=
  {| ordinal := ordinal d; hour := h; minute := m; second := 0;
     microsecond := 0; tzinfo := tzinfo d |}.

(** [datetime.time] values, as far as the program uses them. *)
Record dtime : Type := mkdtime { t_hour : Z; t_minute : Z }.

Definition dtime_valid (t : dtime) : Prop :=
  0 <= t_hour t < 24 /\ 0 <= t_minute t < 60.


(** ** HTTP vocabulary shared by the two in-process variants *)

Inductive Method : Type := GET | HEAD | POST | OtherMethod.

Record Request : Type := mkRequest {
  req_method : Method;
  req_path : string;
  (** The query parameter [interval_hours], when present and an integer. *)
  req_interval_hours : option Z
}.

(** Pages the framework serves by itself on an application created with
    its defaults. *)
Definition framework_pages : list string :=
  ["/docs"; "/redoc"; "/openapi.json"; "/docs/oauth2-redirect"].

(** Paths that differ from a route by a trailing slash only: the router
    redirects them. *)
Definition slash_redirects : list string :=
  ["/status/"; "/admin/restart/"; "/admin/configure/";
   "/docs/"; "/redoc/"; "/openapi.json/"; "/docs/oauth2-redirect/"].

(** * src/restart-1.py *)

Module Restart1.

(** Names bound in the module's global namespace: the imports of lines 1-9,
    then the globals and functions the module defines. None of them is a
    builtin, and [time] is not among them ([datetime.time] is imported as
    [dtime]). *)
Definition module_names : list string :=
  [ "os"; "signal"; "logging"; "datetime"; "timedelta"; "dtime"; "timezone";
    "uvicorn"; "FastAPI"; "BackgroundTasks"; "Request"; "JSONResponse";
    "BackgroundScheduler";
    "logger"; "app"; "last_restart_time"; "default_restart_time";
    "should_restart"; "restart_in_progress"; "scheduler";
    "perform_restart"; "schedule_restart"; "check_restart_status";
    "startup_event"; "shutdown_event"; "root"; "status"; "manual_restart";
    "configure_restart" ].

Inductive LogMsg : Type :=
| PerformingScheduledRestart (p : Z)
| NextRestartScheduledAt (t : datetime)
| ApplicationStarted (p : Z)
| ConfiguredDaily
| SchedulerStarted
| ApplicationShuttingDown
| ManualRestartTriggered (p : Z)
| JobRaised (e : Exn)              (* APScheduler logs a job's exception *)
| JobMissed (run_time : datetime)  (* ... or that its run time was missed *)
| BackgroundTaskRaised (e : Exn).  (* the server logs a task's exception *)

(** APScheduler triggers, as far as the program uses them. *)
Inductive Trigger : Type :=
| DateTrigger (run_date : datetime)
| IntervalTrigger (interval_us : Z).

(** Every job runs [perform_restart]. *)
Record Job : Type := mkJob { trigger : Trigger; next_run_time : datetime }.

Record State : Type := mkState {
  pid : Z;                              (* os.getpid() *)
  default_restart_time : dtime;         (* dtime(23, 30), never reassigned *)
  last_restart_time : datetime;
  should_restart : bool;
  restart_in_progress : bool;
  restart_interval_hours : option Z;    (* unbound until first configured *)
  scheduler_running : bool;
  jobs : list Job;                      (* scheduler.get_jobs() *)
  sent : list (Z * Signal);             (* os.kill calls made, oldest first *)
  log : list LogMsg
}.

Definition set_last_restart_time (t : datetime) (s : State) : State :=
  mkState (pid s) (default_restart_time s) t (should_restart s) (restart_in_progress s)
          (restart_interval_hours s) (scheduler_running s) (jobs s) (sent s) (log s).
Definition set_should_restart (b : bool) (s : State) : State :=
  mkState (pid s) (default_restart_time s) (last_restart_time s) b (restart_in_progress s)
          (restart_interval_hours s) (scheduler_running s) (jobs s) (sent s) (log s).
Definition set_restart_in_progress (b : bool) (s : State) : State :=
  mkState (pid s) (default_restart_time s) (last_restart_time s) (should_restart s) b
          (restart_interval_hours s) (scheduler_running s) (jobs s) (sent s) (log s).
Definition set_restart_interval_hours (h : Z) (s : State) : State :=
  mkState (pid s) (default_restart_time s) (last_restart_time s) (should_restart s) (restart_in_progress s)
          (Some h) (scheduler_running s) (jobs s) (sent s) (log s).
Definition set_scheduler_running (b : bool) (s : State) : State :=
  mkState (pid s) (default_restart_time s) (last_restart_time s) (should_restart s) (restart_in_progress s)
          (restart_interval_hours s) b (jobs s) (sent s) (log s).
Definition set_jobs (js : list Job) (s : State) : State :=
  mkState (pid s) (default_restart_time s) (last_restart_time s) (should_restart s) (restart_in_progress s)
          (restart_interval_hours s) (scheduler_running s) js (sent s) (log s).
Definition push_sent (x : Z * Signal) (s : State) : State :=
  mkState (pid s) (default_restart_time s) (last_restart_time s) (should_restart s) (restart_in_progress s)
          (restart_interval_hours s) (scheduler_running s) (jobs s) (sent s ++ [x]) (log s).
Definition push_log (m : LogMsg) (s : State) : State :=
  mkState (pid s) (default_restart_time s) (last_restart_time s) (should_restart s) (restart_in_progress s)
          (restart_interval_hours s) (scheduler_running s) (jobs s) (sent s) (log s ++ [m]).

Definition M : Type -> Type := @Eff.M State.

Local Open Scope eff_scope.

(** [logger.info(msg)] *)
Definition logger_info (m : LogMsg) : M unit :=
  load_name module_names "logger" ;;
  Eff.modify (push_log m).

(** [os.kill(p, signal.sig)]: the only target is the process itself, which
    exists while it runs this code; the call is recorded. *)
Definition os_kill (p : Z) (sig : Signal) : M unit :=
  load_name module_names "os" ;;
  load_name module_names "signal" ;;
  Eff.modify (push_sent (p, sig)).

(** [time.sleep(secs)]: the name [time] is looked up first. *)
Definition time_sleep (secs : Z) : M unit :=
  load_name module_names "time" ;;
  Eff.ret tt.

(** Lines 29-48. [now] is the reading of [datetime.now(timezone(..))]. *)
Definition perform_restart (now : datetime) : M unit :=
  s <- Eff.get ;;
  let p := pid s in
  logger_info (PerformingScheduledRestart p) ;;
  Eff.modify (set_last_restart_time now) ;;
  Eff.modify (set_restart_in_progress true) ;;
  os_kill p SIGTERM ;;
  time_sleep 30 ;;
  os_kill p SIGKILL.

(** Lines 52-55: the fire time computed by [schedule_restart]. *)
Definition next_restart_time (t : dtime) (now : datetime) : Result datetime :=
  let next_restart := dt_replace_hm now (t_hour t) (t_minute t) in
  if dt_ge now next_restart then dt_add next_restart (timedelta_days 1)
  else Ok next_restart.

(** [scheduler.add_job(perform_restart, 'date', run_date=t)] *)
Definition scheduler_add_date_job (t : datetime) : M unit :=
  Eff.modify (fun s => set_jobs (jobs s ++ [mkJob (DateTrigger t) t]) s).

(** Lines 50-57. *)
Definition schedule_restart (now : datetime) : M unit :=
  s <- Eff.get ;;
  next_restart <- Eff.lift (next_restart_time (default_restart_time s) now) ;;
  scheduler_add_date_job next_restart ;;
  logger_info (NextRestartScheduledAt next_restart).

(** *** HTTP side *)

Inductive Content : Type :=
| CMessage (message : string)
| CRoot (message : string) (process_id : Z) (last_restart : datetime)
        (next_restart : option datetime)
| CStatus (status : string) (process_id : Z) (uptime_us : Z)
          (last_restart : datetime) (next_restart : option datetime)
          (until_next_us : option Z)
| CRestarting (message : string) (process_id : Z)
| CError (error : string)
| CConfigured (interval_hours : Z) (next_restart_in_seconds : Z)
| CDetail (detail : string)
| CPage (path : string)
| CRedirect (path : string).

Record Response : Type := mkResponse { status_code : Z; content : Content }.

(** A handler that returns a dict: the route decorators give no
    [status_code], so the framework answers 200. *)
Definition json_200 (c : Content) : Response := mkResponse 200 c.

(** What [background_tasks.add_task] can queue. *)
Inductive Task : Type := DelayedRestart (p : Z).

(** [scheduler.get_jobs()[0].next_run_time if scheduler.get_jobs() else None] *)
Definition first_next_run (s : State) : option datetime :=
  match jobs s with
  | [] => None
  | j :: _ => Some (next_run_time j)
  end.

(** Lines 59-68. *)
Definition check_restart_status (request : Request)
    (call_next : Request -> M (Response * list Task)) : M (Response * list Task) :=
  s <- Eff.get ;;
  if restart_in_progress s then
    Eff.ret (mkResponse 503
               (CMessage "Server unavailable due to scheduled activity. Please try again later."),
             [])
  else
    response <- call_next request ;;
    Eff.ret response.

(** Lines 93-102. *)
Definition root : M (Response * list Task) :=
  s <- Eff.get ;;
  Eff.ret (json_200 (CRoot "FastAPI server running with auto-restart feature"
                           (pid s) (last_restart_time s) (first_next_run s)), []).

(** Lines 104-117. *)
Definition status (current_time : datetime) : M (Response * list Task) :=
  s <- Eff.get ;;
  let next_restart := first_next_run s in
  Eff.ret (json_200 (CStatus "running" (pid s)
                       (utc_micro current_time - utc_micro (last_restart_time s))
                       (last_restart_time s) next_restart
                       (option_map (fun n => utc_micro n - utc_micro current_time)
                                   next_restart)), []).

(** Lines 130-134, the closure queued by [manual_restart]. *)
Definition delayed_restart (p : Z) : M unit :=
  time_sleep 1 ;;
  os_kill p SIGTERM ;;
  time_sleep 30 ;;
  os_kill p SIGKILL.

(** Lines 119-137. *)
Definition manual_restart : M (Response * list Task) :=
  s <- Eff.get ;;
  let p := pid s in
  logger_info (ManualRestartTriggered p) ;;
  Eff.modify (set_restart_in_progress true) ;;
  Eff.ret (json_200 (CRestarting "Application restarting..." p),
           [DelayedRestart p]).

(** [job.reschedule('interval', hours=h)]: the job gets an interval trigger
    whose first fire time is one interval after the call. *)
Definition job_reschedule (now : datetime) (h : Z) (j : Job) : Result Job :=
  match dt_add now (timedelta_hours h) with
  | Ok t => Ok (mkJob (IntervalTrigger (timedelta_hours h)) t)
  | Raise e => Raise e
  end.

Fixpoint reschedule_jobs (now : datetime) (h : Z) (js : list Job) : Result (list Job) :=
  match js with
  | [] => Ok []
  | j :: rest =>
      match job_reschedule now h j with
      | Raise e => Raise e
      | Ok j' =>
          match reschedule_jobs now h rest with
          | Raise e => Raise e
          | Ok rest' => Ok (j' :: rest')
          end
      end
  end.

(** Lines 139-157. *)
Definition configure_restart (now : datetime) (interval_hours : Z)
  : M (Response * list Task) :=
  if interval_hours <? 1 then
    Eff.ret (json_200 (CError "Interval must be at least 1 hour"), [])
  else
    Eff.modify (set_restart_interval_hours interval_hours) ;;
    s <- Eff.get ;;
    js <- Eff.lift (reschedule_jobs now interval_hours (jobs s)) ;;
    Eff.modify (set_jobs js) ;;
    Eff.ret (json_200 (CConfigured interval_hours (interval_hours * 3600)), []).

(** The framework's routing: the four decorated routes, then the
    framework's own pages; a known path with another method is answered
    405, a missing or non-integer [interval_hours] 422, a path that only
    lacks or has a trailing slash 307, any other path 404. *)
Definition route (now : datetime) (request : Request) : M (Response * list Task) :=
  let p := req_path request in
  if String.eqb p "/" then
    match req_method request with
    | GET => root
    | _ => Eff.ret (mkResponse 405 (CDetail "Method Not Allowed"), [])
    end
  else if String.eqb p "/status" then
    match req_method request with
    | GET => status now
    | _ => Eff.ret (mkResponse 405 (CDetail "Method Not Allowed"), [])
    end
  else if String.eqb p "/admin/restart" then
    match req_method request with
    | POST => manual_restart
    | _ => Eff.ret (mkResponse 405 (CDetail "Method Not Allowed"), [])
    end
  else if String.eqb p "/admin/configure" then
    match req_method request with
    | POST =>
        match req_interval_hours request with
        | Some h => configure_restart now h
        | None => Eff.ret (mkResponse 422 (CDetail "Unprocessable Entity"), [])
        end
    | _ => Eff.ret (mkResponse 405 (CDetail "Method Not Allowed"), [])
    end
  else if existsb (String.eqb p) framework_pages then
    match req_method request with
    | GET | HEAD => Eff.ret (mkResponse 200 (CPage p), [])
    | _ => Eff.ret (mkResponse 405 (CDetail "Method Not Allowed"), [])
    end
  else if existsb (String.eqb p) slash_redirects then
    Eff.ret (mkResponse 307 (CRedirect p), [])
  else Eff.ret (mkResponse 404 (CDetail "Not Found"), []).

(** A queued task runs after the response went out; what it raises is
    logged by the server and the process goes on. *)
Definition run_task (t : Task) : M unit :=
  match t with
  | DelayedRestart p =>
      Eff.try_except (delayed_restart p)
                     (fun e => Eff.modify (push_log (BackgroundTaskRaised e)))
  end.

Fixpoint run_tasks (ts : list Task) : M unit :=
  match ts with
  | [] => Eff.ret tt
  | t :: rest => run_task t ;; run_tasks rest
  end.

(** One request through the middleware stack: an exception that escapes the
    handler is answered 500. *)
Definition handle_request (now : datetime) (request : Request) : M Response :=
  r <- Eff.try_except (check_restart_status request (route now))
         (fun _ => Eff.ret (mkResponse 500 (CDetail "Internal Server Error"), [])) ;;
  run_tasks (snd r) ;;
  Eff.ret (fst r).

(** *** Scheduler side *)

(** The trigger's next fire time after a run at [previous]: a date trigger
    has none, an interval trigger the first multiple of its interval past
    [previous] that is later than [now]. *)
Definition next_fire_time (tr : Trigger) (previous now : datetime) : option datetime :=
  match tr with
  | DateTrigger _ => None
  | IntervalTrigger iv =>
      if iv <=? 0 then None
      else
        match dt_add previous (((utc_micro now - utc_micro previous) / iv + 1) * iv) with
        | Ok t => Some t
        | Raise _ => None
        end
  end.

(** Jobs are added with the scheduler's default [misfire_grace_time] of one
    second. *)
Definition MISFIRE_GRACE_US : Z := 1000000.

(** The executor runs a due job unless its run time was missed by more than
    the grace time; a job's exception is caught and logged. *)
Definition run_job (now run_time : datetime) : M unit :=
  if utc_micro now - utc_micro run_time <=? MISFIRE_GRACE_US then
    Eff.try_except (perform_restart now)
                   (fun e => Eff.modify (push_log (JobRaised e)))
  else Eff.modify (push_log (JobMissed run_time)).

(** The scheduler runs every due job, then keeps it with its next fire time
    or drops it when its trigger has none. *)
Fixpoint process_jobs (now : datetime) (js : list Job) : M (list Job) :=
  match js with
  | [] => Eff.ret []
  | j :: rest =>
      if dt_ge now (next_run_time j) then
        run_job now (next_run_time j) ;;
        rest' <- process_jobs now rest ;;
        match next_fire_time (trigger j) (next_run_time j) now with
        | Some t => Eff.ret (mkJob (trigger j) t :: rest')
        | None => Eff.ret rest'
        end
      else
        rest' <- process_jobs now rest ;;
        Eff.ret (j :: rest')
  end.

Definition scheduler_wakeup (now : datetime) : M unit :=
  s <- Eff.get ;;
  if scheduler_running s then
    js <- process_jobs now (jobs s) ;;
    Eff.modify (set_jobs js)
  else Eff.ret tt.

(** Lines 70-83. *)
Definition startup_event (now : datetime) : M unit :=
  s <- Eff.get ;;
  logger_info (ApplicationStarted (pid s)) ;;
  logger_info ConfiguredDaily ;;
  Eff.modify (set_scheduler_running true) ;;
  schedule_restart now ;;
  logger_info SchedulerStarted.

(** Lines 85-91; shutting the scheduler down empties its in-memory store. *)
Definition shutdown_event : M unit :=
  Eff.modify (set_should_restart false) ;;
  Eff.modify (set_scheduler_running false) ;;
  Eff.modify (set_jobs []) ;;
  logger_info ApplicationShuttingDown.

(** *** The running process *)

Inductive Event : Type :=
| Startup (now : datetime)
| Shutdown
| Http (now : datetime) (request : Request)
| SchedulerWakeup (now : datetime).

(** Module-level initialisation, lines 21-27. *)
Definition init (p : Z) (import_time : datetime) : State :=
  {| pid := p;
     default_restart_time := {| t_hour := 23; t_minute := 30 |};
     last_restart_time := import_time;
     should_restart := true;
     restart_in_progress := false;
     restart_interval_hours := None;
     scheduler_running := false;
     jobs := [];
     sent := [];
     log := [] |}.

Definition step (e : Event) (s : State) : option Response * State :=
  match e with
  | Startup now => (None, snd (startup_event now s))
  | Shutdown => (None, snd (shutdown_event s))
  | Http now request =>
      match handle_request now request s with
      | (Ok r, s') => (Some r, s')
      | (Raise _, s') => (None, s')
      end
  | SchedulerWakeup now => (None, snd (scheduler_wakeup now s))
  end.

(** The responses given along a run, oldest first, and the final state. *)
Fixpoint run (evs : list Event) (s : State) : list Response * State :=
  match evs with
  | [] => ([], s)
  | e :: rest =>
      let '(r, s') := step e s in
      let '(rs, s'') := run rest s' in
      (match r with Some x => x :: rs | None => rs end, s'')
  end.


End Restart1.

(** * src/restart-2.py *)

Module Restart2.

(** Times are microseconds on the process's clock: [datetime.now()] is
    naive here, and [timestamp()] is kept exact instead of a float. *)
Definition SECOND : Z := 1000000.

Inductive LogMsg : Type :=
| PerformingScheduledRestart (p : Z)
| ApplicationStarted (p : Z)
| ConfiguredEvery (hours : Z)
| SchedulerStarted
| ApplicationShuttingDown
| ManualRestartTriggered (p : Z).

(** A thread running [scheduled_restart_task]: inside its [time.sleep]
    until [wake_at], or no longer alive (returned, or ended by an
    exception). *)
Inductive ThreadState : Type :=
| Sleeping (wake_at : Z)
| Finished.

Record State : Type := mkState {
  pid : Z;
  last_restart_time : Z;
  restart_interval_hours : Z;
  restart_thread : option nat;       (* index in [threads] of the global *)
  should_restart : bool;
  threads : list ThreadState;        (* every thread ever started *)
  sent : list (Z * Z * Signal);      (* (time, pid, signal), oldest first *)
  log : list LogMsg
}.

Definition set_last_restart_time (t : Z) (s : State) : State :=
  mkState (pid s) t (restart_interval_hours s) (restart_thread s)
          (should_restart s) (threads s) (sent s) (log s).
Definition set_restart_interval_hours (h : Z) (s : State) : State :=
  mkState (pid s) (last_restart_time s) h (restart_thread s)
          (should_restart s) (threads s) (sent s) (log s).
Definition set_restart_thread (t : option nat) (s : State) : State :=
  mkState (pid s) (last_restart_time s) (restart_interval_hours s) t
          (should_restart s) (threads s) (sent s) (log s).
Definition set_should_restart (b : bool) (s : State) : State :=
  mkState (pid s) (last_restart_time s) (restart_interval_hours s) (restart_thread s)
          b (threads s) (sent s) (log s).
Definition set_threads (ts : list ThreadState) (s : State) : State :=
  mkState (pid s) (last_restart_time s) (restart_interval_hours s) (restart_thread s)
          (should_restart s) ts (sent s) (log s).
Definition push_sent (x : Z * Z * Signal) (s : State) : State :=
  mkState (pid s) (last_restart_time s) (restart_interval_hours s) (restart_thread s)
          (should_restart s) (threads s) (sent s ++ [x]) (log s).
Definition push_log (m : LogMsg) (s : State) : State :=
  mkState (pid s) (last_restart_time s) (restart_interval_hours s) (restart_thread s)
          (should_restart s) (threads s) (sent s) (log s ++ [m]).

Definition M : Type -> Type := @Eff.M State.

Local Open Scope eff_scope.

Definition logger_info (m : LogMsg) : M unit := Eff.modify (push_log m).

(** [os.kill(p, signal.sig)] at time [t], on the process itself. *)
Definition os_kill (t p : Z) (sig : Signal) : M unit :=
  Eff.modify (push_sent (t, p, sig)).

Fixpoint set_nth {A} (i : nat) (x : A) (l : list A) : list A :=
  match l, i with
  | [], _ => []
  | _ :: rest, O => x :: rest
  | y :: rest, S j => y :: set_nth j x rest
  end.

(** [time.sleep(secs)] on an integer: the length is first converted to the
    interpreter's signed 64-bit count of nanoseconds, which raises
    [OverflowError] when it does not fit; a negative length then raises
    [ValueError]. *)
Definition time_sleep_check (secs : Z) : Result unit :=
  if (secs * 1000000000 <? - 9223372036854775808)
     || (9223372036854775807 <? secs * 1000000000) then Raise OverflowError
  else if secs <? 0 then Raise ValueError
  else Ok tt.

(** Lines 30-32 of [scheduled_restart_task], run by a thread that starts at
    [now]: the loop test, then the sleep for the interval read at that
    moment. A sleep that raises ends the thread at once (nothing catches
    the exception), without any restart. *)
Definition scheduled_restart_task_start (now : Z) (s : State) : ThreadState :=
  if should_restart s then
    match time_sleep_check (restart_interval_hours s * 3600) with
    | Ok _ => Sleeping (now + restart_interval_hours s * 3600 * SECOND)
    | Raise _ => Finished
    end
  else Finished.

(** Lines 34-43, run when the sleep ends at [wake]; the loop test is not
    evaluated again before the signal. *)
Definition scheduled_restart_task_wake (wake : Z) : M unit :=
  s <- Eff.get ;;
  let p := pid s in
  logger_info (PerformingScheduledRestart p) ;;
  Eff.modify (set_last_restart_time wake) ;;
  os_kill wake p SIGTERM.

(** [threading.Thread(target=scheduled_restart_task)] ... [.start()] *)
Definition thread_start (now : Z) : M nat :=
  s <- Eff.get ;;
  Eff.modify (set_threads (threads s ++ [scheduled_restart_task_start now s])) ;;
  Eff.ret (List.length (threads s)).

(** The sleep of thread [i] ends. *)
Definition thread_wakes (i : nat) : M unit :=
  s <- Eff.get ;;
  match nth_error (threads s) i with
  | Some (Sleeping w) =>
      scheduled_restart_task_wake w ;;
      Eff.modify (fun s' => set_threads (set_nth i Finished (threads s')) s')
  | _ => Eff.ret tt
  end.

(** Lines 121-122: [if restart_thread and restart_thread.is_alive():
    restart_thread.join(timeout=1.0)], entered at [now]; the result is the
    time at which the caller goes on. *)
Definition join_restart_thread (now : Z) : M Z :=
  s <- Eff.get ;;
  match restart_thread s with
  | None => Eff.ret now
  | Some i =>
      match nth_error (threads s) i with
      | Some (Sleeping w) =>
          if w <=? now + 1 * SECOND
          then thread_wakes i ;; Eff.ret (Z.max now w)
          else Eff.ret (now + 1 * SECOND)
      | _ => Eff.ret now
      end
  end.

Inductive Content : Type :=
| CRoot (message : string) (process_id : Z) (last_restart : Z) (next_restart : Z)
| CStatus (status : string) (process_id : Z) (uptime_us : Z) (last_restart : Z)
          (next_restart_in_us : Z) (restart_interval_hours : Z)
| CRestarting (message : string) (process_id : Z)
| CError (error : string)
| CConfigured (interval_hours : Z) (next_restart_in_seconds : Z)
| CDetail (detail : string)
| CPage (path : string)
| CRedirect (path : string).

Record Response : Type := mkResponse { status_code : Z; content : Content }.

(** A handler that returns a dict is answered with status 200. *)
Definition json_200 (c : Content) : Response := mkResponse 200 c.

Inductive Task : Type := DelayedRestart (p : Z).

(** Lines 68-76. *)
Definition root : M (Response * list Task) :=
  s <- Eff.get ;;
  Eff.ret (json_200 (CRoot "FastAPI server running with auto-restart feature"
                       (pid s) (last_restart_time s)
                       (last_restart_time s + restart_interval_hours s * 3600 * SECOND)),
           []).

(** Lines 78-92. *)
Definition status (current_time : Z) : M (Response * list Task) :=
  s <- Eff.get ;;
  let next_restart := last_restart_time s + restart_interval_hours s * 3600 * SECOND in
  let seconds_until_restart := Z.max 0 (next_restart - current_time) in
  Eff.ret (json_200 (CStatus "running" (pid s) (current_time - last_restart_time s)
                       (last_restart_time s) seconds_until_restart
                       (restart_interval_hours s)), []).

(** Lines 101-103, started at [now]. *)
Definition delayed_restart (now p : Z) : M unit :=
  os_kill (now + 1 * SECOND) p SIGTERM.

(** Lines 94-106. *)
Definition manual_restart : M (Response * list Task) :=
  s <- Eff.get ;;
  let p := pid s in
  logger_info (ManualRestartTriggered p) ;;
  Eff.ret (json_200 (CRestarting "Application restarting..." p), [DelayedRestart p]).

(** Lines 108-132. *)
Definition configure_restart (now : Z) (interval_hours : Z) : M (Response * list Task) :=
  if interval_hours <? 1 then
    Eff.ret (json_200 (CError "Interval must be at least 1 hour"), [])
  else
    Eff.modify (set_restart_interval_hours interval_hours) ;;
    Eff.modify (set_should_restart false) ;;
    resumed <- join_restart_thread now ;;
    Eff.modify (set_should_restart true) ;;
    t <- thread_start resumed ;;
    Eff.modify (set_restart_thread (Some t)) ;;
    s <- Eff.get ;;
    Eff.ret (json_200 (CConfigured interval_hours (restart_interval_hours s * 3600)), []).

(** The framework's routing, as in [Restart1.route]. *)
Definition route (now : Z) (request : Request) : M (Response * list Task) :=
  let p := req_path request in
  if String.eqb p "/" then
    match req_method request with
    | GET => root
    | _ => Eff.ret (mkResponse 405 (CDetail "Method Not Allowed"), [])
    end
  else if String.eqb p "/status" then
    match req_method request with
    | GET => status now
    | _ => Eff.ret (mkResponse 405 (CDetail "Method Not Allowed"), [])
    end
  else if String.eqb p "/admin/restart" then
    match req_method request with
    | POST => manual_restart
    | _ => Eff.ret (mkResponse 405 (CDetail "Method Not Allowed"), [])
    end
  else if String.eqb p "/admin/configure" then
    match req_method request with
    | POST =>
        match req_interval_hours request with
        | Some h => configure_restart now h
        | None => Eff.ret (mkResponse 422 (CDetail "Unprocessable Entity"), [])
        end
    | _ => Eff.ret (mkResponse 405 (CDetail "Method Not Allowed"), [])
    end
  else if existsb (String.eqb p) framework_pages then
    match req_method request with
    | GET | HEAD => Eff.ret (mkResponse 200 (CPage p), [])
    | _ => Eff.ret (mkResponse 405 (CDetail "Method Not Allowed"), [])
    end
  else if existsb (String.eqb p) slash_redirects then
    Eff.ret (mkResponse 307 (CRedirect p), [])
  else Eff.ret (mkResponse 404 (CDetail "Not Found"), []).

Definition run_task (now : Z) (t : Task) : M unit :=
  match t with
  | DelayedRestart p => delayed_restart now p
  end.

Fixpoint run_tasks (now : Z) (ts : list Task) : M unit :=
  match ts with
  | [] => Eff.ret tt
  | t :: rest => run_task now t ;; run_tasks now rest
  end.

(** One request: the handler, then the tasks it queued. *)
Definition handle_request (now : Z) (request : Request) : M Response :=
  r <- route now request ;;
  run_tasks now (snd r) ;;
  Eff.ret (fst r).

(** Lines 45-59. *)
Definition startup_event (now : Z) : M unit :=
  s <- Eff.get ;;
  logger_info (ApplicationStarted (pid s)) ;;
  logger_info (ConfiguredEvery (restart_interval_hours s)) ;;
  t <- thread_start now ;;
  Eff.modify (set_restart_thread (Some t)) ;;
  logger_info SchedulerStarted.

(** Lines 61-66. *)
Definition shutdown_event : M unit :=
  Eff.modify (set_should_restart false) ;;
  logger_info ApplicationShuttingDown.

Inductive Event : Type :=
| Startup (now : Z)
| Shutdown
| Http (now : Z) (request : Request)
| ThreadWakes (i : nat).

(** Module-level initialisation, lines 20-24. *)
Definition init (p : Z) (import_time : Z) : State :=
  {| pid := p;
     last_restart_time := import_time;
     restart_interval_hours := 6;
     restart_thread := None;
     should_restart := true;
     threads := [];
     sent := [];
     log := [] |}.

Definition step (e : Event) (s : State) : option Response * State :=
  match e with
  | Startup now => (None, snd (startup_event now s))
  | Shutdown => (None, snd (shutdown_event s))
  | Http now request =>
      match handle_request now request s with
      | (Ok r, s') => (Some r, s')
      | (Raise _, s') => (None, s')
      end
  | ThreadWakes i => (None, snd (thread_wakes i s))
  end.

Fixpoint run (evs : list Event) (s : State) : list Response * State :=
  match evs with
  | [] => ([], s)
  | e :: rest =>
      let '(r, s') := step e s in
      let '(rs, s'') := run rest s' in
      (match r with Some x => x :: rs | None => rs end, s'')
  end.

(** The fire times that are armed: the wake-up times of the threads that
    are still inside their sleep. *)
Fixpoint armed_of (ts : list ThreadState) : list Z :=
  match ts with
  | [] => []
  | Sleeping w :: rest => w :: armed_of rest
  | Finished :: rest => armed_of rest
  end.

Definition armed (s : State) : list Z := armed_of (threads s).

End Restart2.

(** * src/restart-3-graceful+forced.py *)

Module Restart3.

(** An entry of the operating system's process table, as [psutil] shows it:
    [cmdline] is [None] when it cannot be read (as for a process that has
    exited and was not reaped yet); [killable] is false for a process the
    watchdog may not signal. *)
Record Proc : Type := mkProc {
  p_pid : Z;
  p_cmdline : option (list string);
  p_killable : bool
}.

Inductive LogMsg : Type :=
| InfoFound (p : Z)
| WarnNoProcessFound
| InfoRestarting (p : Z)
| InfoSigtermSent
| WarnStillRunning (p : Z)
| ErrorPidNotFound (p : Z)
| ErrorDuringRestart (e : Exn)
| WarnNothingToRestart
| InfoStarting
| InfoStarted
| ErrorStarting (e : Exn)
| InfoScheduled (hours : Z).

Definition is_error (m : LogMsg) : bool :=
  match m with
  | ErrorPidNotFound _ | ErrorDuringRestart _ | ErrorStarting _ => true
  | _ => false
  end.

Record State : Type := mkState {
  procs : list Proc;              (* the process table *)
  clock : Z;                      (* seconds *)
  next_pid : Z;                   (* pid the next spawned process gets *)
  launcher_ok : bool;             (* whether [subprocess.Popen] succeeds *)
  next_run : option Z;            (* the [schedule] job's next run *)
  sent : list (Z * Signal);       (* signals delivered, oldest first *)
  spawned : list Z;               (* pids launched by [start_fastapi] *)
  log : list LogMsg
}.

Definition set_procs (ps : list Proc) (s : State) : State :=
  mkState ps (clock s) (next_pid s) (launcher_ok s) (next_run s) (sent s) (spawned s) (log s).
Definition set_clock (t : Z) (s : State) : State :=
  mkState (procs s) t (next_pid s) (launcher_ok s) (next_run s) (sent s) (spawned s) (log s).
Definition set_next_run (t : option Z) (s : State) : State :=
  mkState (procs s) (clock s) (next_pid s) (launcher_ok s) t (sent s) (spawned s) (log s).
Definition push_sent (x : Z * Signal) (s : State) : State :=
  mkState (procs s) (clock s) (next_pid s) (launcher_ok s) (next_run s) (sent s ++ [x])
          (spawned s) (log s).
Definition push_log (m : LogMsg) (s : State) : State :=
  mkState (procs s) (clock s) (next_pid s) (launcher_ok s) (next_run s) (sent s)
          (spawned s) (log s ++ [m]).

(** What the rest of the system does to the process table while the
    watchdog is between two of its own steps. *)
Record Interference : Type := mkInterference {
  before_term : list Proc -> list Proc;   (* between the lookup and SIGTERM *)
  during_sleep : list Proc -> list Proc;  (* during [time.sleep(5)] *)
  before_kill : list Proc -> list Proc    (* between [pid_exists] and SIGKILL *)
}.

Definition quiet : Interference := mkInterference (fun ps => ps) (fun ps => ps) (fun ps => ps).

Definition M : Type -> Type := @Eff.M State.

Local Open Scope eff_scope.

Definition logger (m : LogMsg) : M unit := Eff.modify (push_log m).

Definition interfere (f : list Proc -> list Proc) : M unit :=
  Eff.modify (fun s => set_procs (f (procs s)) s).

(** [' '.join(cmdline)] *)
Definition join_space (l : list string) : string := String.concat " " l.

(** [needle in haystack] *)
Definition contains (needle haystack : string) : bool :=
  match String.index 0 needle haystack with
  | Some _ => true
  | None => false
  end.

(** Line 21: a [None] or empty command line is falsy. *)
Definition is_uvicorn (p : Proc) : bool :=
  match p_cmdline p with
  | Some ((_ :: _) as l) => contains "uvicorn" (join_space l)
  | _ => false
  end.

Fixpoint first_uvicorn (ps : list Proc) : option Z :=
  match ps with
  | [] => None
  | p :: rest => if is_uvicorn p then Some (p_pid p) else first_uvicorn rest
  end.

(** Lines 16-29. *)
Definition find_fastapi_pid : M (option Z) :=
  s <- Eff.get ;;
  match first_uvicorn (procs s) with
  | Some p => logger (InfoFound p) ;; Eff.ret (Some p)
  | None => logger WarnNoProcessFound ;; Eff.ret None
  end.

(** [psutil.pid_exists(p)] *)
Definition pid_exists (p : Z) (s : State) : bool :=
  existsb (fun q => p_pid q =? p) (procs s).

Definition killable (p : Z) (s : State) : bool :=
  existsb (fun q => (p_pid q =? p) && p_killable q) (procs s).

(** [os.kill(p, sig)]: no such process raises [ProcessLookupError]. The
    call returns once the signal is queued: the process table changes only
    through what the rest of the system does afterwards, and the watchdog
    neither waits for the target nor reaps it. *)
Definition os_kill (p : Z) (sig : Signal) : M unit :=
  s <- Eff.get ;;
  if negb (pid_exists p s) then Eff.raise ProcessLookupError
  else if negb (killable p s) then Eff.raise PermissionError
  else Eff.modify (push_sent (p, sig)).

Definition time_sleep (secs : Z) (world : list Proc -> list Proc) : M unit :=
  interfere world ;;
  Eff.modify (fun s => set_clock (clock s + secs) s).

Definition uvicorn_command : list string :=
  ["uvicorn"; "main:app"; "--host"; "0.0.0.0"; "--port"; "8000"].

(** [subprocess.Popen(...)] *)
Definition popen : M unit :=
  s <- Eff.get ;;
  if launcher_ok s then
    Eff.modify (fun s' =>
      mkState (procs s' ++ [mkProc (next_pid s') (Some uvicorn_command) true])
              (clock s') (next_pid s' + 1) (launcher_ok s') (next_run s') (sent s')
              (spawned s' ++ [next_pid s']) (log s'))
  else Eff.raise OSError.

(** Lines 59-73. *)
Definition start_fastapi : M unit :=
  Eff.try_except
    (logger InfoStarting ;;
     popen ;;
     logger InfoStarted)
    (fun e => logger (ErrorStarting e)).

(** [if pid:] *)
Definition truthy (pid : option Z) : bool :=
  match pid with
  | Some p => negb (p =? 0)
  | None => false
  end.

(** Lines 31-57. *)
Definition restart_fastapi (env : Interference) : M unit :=
  pid <- find_fastapi_pid ;;
  match pid with
  | Some p =>
      if truthy pid then
        logger (InfoRestarting p) ;;
        Eff.try_except
          (interfere (before_term env) ;;
           os_kill p SIGTERM ;;
           logger InfoSigtermSent ;;
           time_sleep 5 (during_sleep env) ;;
           s <- Eff.get ;;
           (if pid_exists p s then
              logger (WarnStillRunning p) ;;
              interfere (before_kill env) ;;
              os_kill p SIGKILL
            else Eff.ret tt) ;;
           start_fastapi)
          (fun e =>
             match e with
             | ProcessLookupError => logger (ErrorPidNotFound p)
             | _ => logger (ErrorDuringRestart e)
             end)
      else
        logger WarnNothingToRestart ;;
        start_fastapi
  | None =>
      logger WarnNothingToRestart ;;
      start_fastapi
  end.

(** [schedule.run_pending()]: a due job is run, then armed again one period
    after the moment its run ended. *)
Definition run_pending (interval_hours : Z) (env : Interference) : M unit :=
  s <- Eff.get ;;
  match next_run s with
  | Some t =>
      if t <=? clock s then
        restart_fastapi env ;;
        Eff.modify (fun s' => set_next_run (Some (clock s' + interval_hours * 3600)) s')
      else Eff.ret tt
  | None => Eff.ret tt
  end.

(** Lines 77-82, what [schedule_restarts] does before its loop. *)
Definition schedule_restarts_setup (interval_hours : Z) : M unit :=
  Eff.modify (fun s => set_next_run (Some (clock s + interval_hours * 3600)) s) ;;
  logger (InfoScheduled interval_hours) ;;
  pid <- find_fastapi_pid ;;
  if negb (truthy pid) then start_fastapi else Eff.ret tt.

(** Lines 85-87, as many turns of the endless loop as there are
    interferences given. *)
Fixpoint schedule_restarts_loop (interval_hours : Z) (envs : list Interference) : M unit :=
  match envs with
  | [] => Eff.ret tt
  | env :: rest =>
      run_pending interval_hours env ;;
      time_sleep 60 (fun ps => ps) ;;
      schedule_restarts_loop interval_hours rest
  end.

End Restart3.

(** * Vocabulary of the statements *)

Definition day_after (d : datetime) : datetime :=
  {| ordinal := ordinal d + 1; hour := hour d; minute := minute d;
     second := second d; microsecond := microsecond d; tzinfo := tzinfo d |}.

Definition gate_response : Restart1.Response :=
  Restart1.mkResponse 503
    (Restart1.CMessage
       "Server unavailable due to scheduled activity. Please try again later.").

(** The state a scheduled fire leaves behind when it stops at line 47. *)
Definition fired (now : datetime) (s : Restart1.State) : Restart1.State :=
  Restart1.push_sent (Restart1.pid s, SIGTERM)
    (Restart1.set_restart_in_progress true
       (Restart1.set_last_restart_time now
          (Restart1.push_log (Restart1.PerformingScheduledRestart (Restart1.pid s)) s))).

(** The state after the executor dealt with a job that was due at
    [run_time]. *)
Definition after_job (now run_time : datetime) (s : Restart1.State) : Restart1.State :=
  if utc_micro now - utc_micro run_time <=? Restart1.MISFIRE_GRACE_US
  then Restart1.push_log (Restart1.JobRaised (NameError "time")) (fired now s)
  else Restart1.push_log (Restart1.JobMissed run_time) s.

Fixpoint http_count (evs : list Restart1.Event) : nat :=
  match evs with
  | [] => O
  | Restart1.Http _ _ :: rest => S (http_count rest)
  | _ :: rest => http_count rest
  end.

Definition is_date (j : Restart1.Job) : bool :=
  match Restart1.trigger j with
  | Restart1.DateTrigger _ => true
  | Restart1.IntervalTrigger _ => false
  end.

Definition not_due (now : datetime) (j : Restart1.Job) : bool :=
  negb (dt_ge now (Restart1.next_run_time j)).

(** A time zone as the tz database describes it: the UTC offset, in
    seconds, in force at each instant (microseconds on the UTC axis). *)
Definition Zone : Type := Z -> Z.

(** [datetime.now(tz)] at the instant [u]: the reading of the zone's wall
    clock, carrying the offset in force at [u]. *)
Definition datetime_now (z : Zone) (u : Z) : datetime :=
  of_micro (u + z u * 1000000) (z u).

(** [d.astimezone(tz)]: the reading of the zone's wall clock at the instant
    of [d]. *)
Definition astimezone (z : Zone) (d : datetime) : datetime :=
  datetime_now z (utc_micro d).

(** Europe/London as the tz database has it for 2024: British Summer Time,
    one hour ahead of UTC, from 2024-03-31 01:00 UTC until 2024-10-27
    01:00 UTC, and Greenwich Mean Time before and after. *)
Definition BST_2024_BEGIN : Z := utc_micro (mkdt 738976 1 0 0 0 0).
Definition BST_2024_END : Z := utc_micro (mkdt 739186 1 0 0 0 0).

Definition Europe_London : Zone :=
  fun u => if (BST_2024_BEGIN <=? u) && (u <? BST_2024_END) then 3600 else 0.

(** 2024-12-30, Europe/London on GMT. *)
Definition t_import : datetime := mkdt 739250 9 0 0 0 0.
Definition t_manual : datetime := mkdt 739250 9 30 0 0 0.
Definition t_configure : datetime := mkdt 739250 10 0 0 0 0.
Definition t_fire : datetime := mkdt 739250 23 30 0 0 0.

Definition post_restart : Request := mkRequest POST "/admin/restart" None.

Definition post_configure (h : Z) : Request := mkRequest POST "/admin/configure" (Some h).

Definition has_pid (p : Z) (ps : list Restart3.Proc) : bool :=
  existsb (fun q => Restart3.p_pid q =? p) ps.

Definition can_signal (p : Z) (ps : list Restart3.Proc) : bool :=
  existsb (fun q => (Restart3.p_pid q =? p) && Restart3.p_killable q) ps.

(** The signals one call of [restart_fastapi] sends, given the process
    table it starts from and what happens to the table meanwhile. *)
Definition signals_of (env : Restart3.Interference) (ps : list Restart3.Proc)
  : list (Z * Signal) :=
  match Restart3.first_uvicorn ps with
  | Some p =>
      let ps1 := Restart3.before_term env ps in
      let ps2 := Restart3.during_sleep env ps1 in
      let ps3 := Restart3.before_kill env ps2 in
      if negb (p =? 0) && has_pid p ps1 && can_signal p ps1 then
        (p, SIGTERM)
          :: (if has_pid p ps2 && has_pid p ps3 && can_signal p ps3
              then [(p, SIGKILL)] else [])
      else []
  | None => []
  end.

Definition race_log (p : Z) : list Restart3.LogMsg :=
  [Restart3.InfoFound p; Restart3.InfoRestarting p; Restart3.ErrorPidNotFound p].

(** The process the watchdog located under pid [p] is still running: the
    table has an entry with that pid that shows a uvicorn command line. *)
Definition target_alive (p : Z) (ps : list Restart3.Proc) : bool :=
  existsb (fun q => (Restart3.p_pid q =? p) && Restart3.is_uvicorn q) ps.

(** The process with pid [p] exits and nobody reaps it: its entry stays in
    the table, without a command line. *)
Definition exits_unreaped (p : Z) (ps : list Restart3.Proc) : list Restart3.Proc :=
  map (fun q => if Restart3.p_pid q =? p
                then Restart3.mkProc p None (Restart3.p_killable q) else q) ps.

(** A computation of the watchdog that leaves the armed job alone. *)
Definition keeps_next_run {A} (m : Restart3.M A) : Prop :=
  forall s, Restart3.next_run (snd (m s)) = Restart3.next_run s.

(** A computation of the watchdog that never lets an exception out. *)
Definition returns {A} (m : Restart3.M A) : Prop :=
  forall s, exists a, fst (m s) = Ok a.

(** The watchdog's state once SIGTERM went out and the grace period of
    five seconds is over. *)
Definition after_sigterm (env : Restart3.Interference) (p : Z) (s : Restart3.State)
  : Restart3.State :=
  Restart3.set_clock (Restart3.clock s + 5)
    (Restart3.set_procs
       (Restart3.during_sleep env (Restart3.before_term env (Restart3.procs s)))
       (Restart3.push_log Restart3.InfoSigtermSent
          (Restart3.push_sent (p, SIGTERM)
             (Restart3.set_procs (Restart3.before_term env (Restart3.procs s))
                (Restart3.push_log (Restart3.InfoRestarting p)
                   (Restart3.push_log (Restart3.InfoFound p) s)))))).

(** ... and once it has seen the target still there and is about to send
    SIGKILL. *)
Definition before_sigkill (env : Restart3.Interference) (p : Z) (s : Restart3.State)
  : Restart3.State :=
  Restart3.set_procs
    (Restart3.before_kill env (Restart3.procs (after_sigterm env p s)))
    (Restart3.push_log (Restart3.WarnStillRunning p) (after_sigterm env p s)).

(** ... and once SIGKILL went out. *)
Definition after_sigkill (env : Restart3.Interference) (p : Z) (s : Restart3.State)
  : Restart3.State :=
  Restart3.push_sent (p, SIGKILL) (before_sigkill env p s).

(** [restart_thread and restart_thread.is_alive()], as restart-2's
    [configure_restart] tests it. *)
Definition restart_thread_alive (s : Restart2.State) : bool :=
  match Restart2.restart_thread s with
  | None => false
  | Some i =>
      match nth_error (Restart2.threads s) i with
      | Some (Restart2.Sleeping _) => true
      | _ => false
      end
  end.

(** The global [restart_thread] is unset while no thread was started, and
    otherwise refers to the thread started last. *)
Definition refers_to_last_thread (s : Restart2.State) : Prop :=
  match Restart2.restart_thread s with
  | None => Restart2.threads s = []
  | Some i => S i = List.length (Restart2.threads s)
  end.

(** The status codes restart-2 can answer with. *)
Definition plain_status (c : Z) : Prop :=
  c = 200 \/ c = 307 \/ c = 404 \/ c = 405 \/ c = 422.

(** Every entry of restart-2's signal record is a SIGTERM to [p]. *)
Definition only_sigterm_to (p : Z) (l : list (Z * Z * Signal)) : Prop :=
  Forall (fun x => snd (fst x) = p /\ snd x = SIGTERM) l.

(** From [s] to [s'] restart-1 kept its pid and sent nothing but SIGTERMs
    to itself. *)
Definition grows_by_sigterm (s s' : Restart1.State) : Prop :=
  Restart1.pid s' = Restart1.pid s /\
  exists k, Restart1.sent s' = Restart1.sent s ++ repeat (Restart1.pid s, SIGTERM) k.

(** The longest interval, in hours, whose length in seconds [time.sleep]
    accepts. *)
Definition MAX_SLEEP_HOURS : Z := 2562047.

(** * Theorems *)

Ltac eff_unfold :=
  unfold Eff.bind, Eff.ret, Eff.get, Eff.modify, Eff.raise, Eff.lift,
         Eff.try_except in *.

Lemma of_micro_naive_micro (d : datetime) :
  dt_valid d -> of_micro (naive_micro d) (tzinfo d) = d.
Proof.
  intros (Ho & Hh & Hm & Hs & Hu).
  destruct d as [o h m s u tz]; cbn in *.
  unfold of_micro, naive_micro, DAY_US; cbn.
  f_equal.
  - symmetry. apply Z.div_unique_pos with (r := ((h * 60 + m) * 60 + s) * 1000000 + u); lia.
  - replace ((((o * 24 + h) * 60 + m) * 60 + s) * 1000000 + u)
      with ((o * 24 + h) * 3600000000 + ((m * 60 + s) * 1000000 + u)) by lia.
    rewrite Z.div_add_l by lia.
    rewrite (Z.div_small ((m * 60 + s) * 1000000 + u)) by lia.
    rewrite Z.add_0_r, Z.add_comm, Z.mod_add by lia.
    apply Z.mod_small; lia.
  - replace ((((o * 24 + h) * 60 + m) * 60 + s) * 1000000 + u)
      with (((o * 24 + h) * 60 + m) * 60000000 + (s * 1000000 + u)) by lia.
    rewrite Z.div_add_l by lia.
    rewrite (Z.div_small (s * 1000000 + u)) by lia.
    rewrite Z.add_0_r, Z.add_comm, Z.mod_add by lia.
    apply Z.mod_small; lia.
  - rewrite Z.div_add_l by lia.
    rewrite (Z.div_small u) by lia.
    rewrite Z.add_0_r, Z.add_comm, Z.mod_add by lia.
    apply Z.mod_small; lia.
  - rewrite Z.add_comm, Z.mod_add by lia.
    apply Z.mod_small; lia.
Qed.

Lemma naive_micro_of_micro (us tz : Z) : naive_micro (of_micro us tz) = us.
Proof.
  unfold naive_micro, of_micro, DAY_US; cbn.
  assert (H1 : us / 86400000000 * 24 + (us / 3600000000) mod 24 = us / 3600000000).
  { replace (us / 86400000000) with (us / 3600000000 / 24)
      by (rewrite Z.div_div by lia; reflexivity).
    pose proof (Z.div_mod (us / 3600000000) 24). lia. }
  assert (H2 : us / 3600000000 * 60 + (us / 60000000) mod 60 = us / 60000000).
  { replace (us / 3600000000) with (us / 60000000 / 60)
      by (rewrite Z.div_div by lia; reflexivity).
    pose proof (Z.div_mod (us / 60000000) 60). lia. }
  assert (H3 : us / 60000000 * 60 + (us / 1000000) mod 60 = us / 1000000).
  { replace (us / 60000000) with (us / 1000000 / 60)
      by (rewrite Z.div_div by lia; reflexivity).
    pose proof (Z.div_mod (us / 1000000) 60). lia. }
  rewrite H1, H2, H3.
  pose proof (Z.div_mod us 1000000). lia.
Qed.

Lemma naive_micro_next_day (d : datetime) :
  naive_micro d + timedelta_days 1
  = naive_micro {| ordinal := ordinal d + 1; hour := hour d; minute := minute d;
                   second := second d; microsecond := microsecond d;
                   tzinfo := tzinfo d |}.
Proof. unfold naive_micro, timedelta_days, DAY_US; cbn. lia. Qed.

(** Adding one day moves the date and keeps the wall-clock reading. *)
Lemma dt_add_one_day (d : datetime) :
  dt_valid d -> ordinal d < MAXORDINAL ->
  dt_add d (timedelta_days 1)
  = Ok {| ordinal := ordinal d + 1; hour := hour d; minute := minute d;
          second := second d; microsecond := microsecond d;
          tzinfo := tzinfo d |}.
Proof.
  intros Hv Hmax. unfold dt_add.
  rewrite naive_micro_next_day.
  set (d' := {| ordinal := ordinal d + 1; hour := hour d; minute := minute d;
                second := second d; microsecond := microsecond d;
                tzinfo := tzinfo d |}).
  assert (Hv' : dt_valid d').
  { unfold dt_valid, MINORDINAL in *. subst d'; cbn. lia. }
  change (tzinfo d) with (tzinfo d').
  rewrite (of_micro_naive_micro d' Hv').
  destruct Hv' as ((H1 & H2) & _).
  apply Z.leb_le in H1, H2. rewrite H1, H2. reflexivity.
Qed.

(** ** Calendar-time fire time (restart-1, [schedule_restart]) *)

Lemma dt_ge_same_tz (a b : datetime) :
  tzinfo a = tzinfo b -> dt_ge a b = (utc_micro b <=? utc_micro a).
Proof.
  intros E. unfold dt_ge, utc_micro. rewrite E, Z.eqb_refl.
  apply eq_true_iff_eq. rewrite !Z.leb_le. lia.
Qed.

Lemma dt_replace_hm_valid (d : datetime) (t : dtime) :
  dt_valid d -> dtime_valid t ->
  dt_valid (dt_replace_hm d (t_hour t) (t_minute t)).
Proof. unfold dt_valid, dtime_valid; cbn. lia. Qed.

Lemma next_restart_time_cases (t : dtime) (now : datetime) :
  dtime_valid t -> dt_valid now -> ordinal now < MAXORDINAL ->
  let today := dt_replace_hm now (t_hour t) (t_minute t) in
  (utc_micro now < utc_micro today /\
   Restart1.next_restart_time t now = Ok today) \/
  (utc_micro today <= utc_micro now /\
   Restart1.next_restart_time t now = Ok (day_after today)).
Proof.
  intros Ht Hnow Hmax today.
  pose proof (dt_replace_hm_valid now t Hnow Ht) as Hv. fold today in Hv.
  unfold Restart1.next_restart_time. fold today.
  rewrite (dt_ge_same_tz now today eq_refl).
  destruct (Z.leb_spec (utc_micro today) (utc_micro now)) as [Hle | Hlt].
  - right. split; [exact Hle | ].
    apply (dt_add_one_day today Hv). exact Hmax.
  - left. split; [exact Hlt | reflexivity].
Qed.

Lemma schedule_restart_jobs (s : Restart1.State) (now fire : datetime) :
  Restart1.next_restart_time (Restart1.default_restart_time s) now = Ok fire ->
  Restart1.jobs (snd (Restart1.schedule_restart now s))
  = Restart1.jobs s ++ [Restart1.mkJob (Restart1.DateTrigger fire) fire].
Proof.
  intros H. unfold Restart1.schedule_restart. eff_unfold. rewrite H. reflexivity.
Qed.

Lemma next_restart_time_valid (t : dtime) (now fire : datetime) :
  dtime_valid t -> dt_valid now -> ordinal now < MAXORDINAL ->
  Restart1.next_restart_time t now = Ok fire ->
  dt_valid fire /\ tzinfo fire = tzinfo now /\
  hour fire = t_hour t /\ minute fire = t_minute t /\
  second fire = 0 /\ microsecond fire = 0.
Proof.
  intros Ht Hnow Hmax Hn.
  pose proof (dt_replace_hm_valid now t Hnow Ht) as Hv.
  destruct (next_restart_time_cases t now Ht Hnow Hmax) as [[_ H] | [_ H]];
    rewrite H in Hn; injection Hn as <-.
  - repeat split; try reflexivity; apply Hv.
  - repeat split; try reflexivity;
      unfold dt_valid, MINORDINAL, MAXORDINAL in *; cbn in *; lia.
Qed.

(** C4, where the code departs from the specification. [schedule_restart]
    builds the fire time from the clock reading [now = datetime.now(tz)]
    with [replace] and [+ timedelta(days=1)], which keep the UTC offset
    that is in force at [now]: the fire time reads [h:m:00.000000] with
    that offset, not with the offset the zone has at the fire instant. The
    zone's own clock at the fire instant therefore reads [h:m] shifted by
    the difference of the two offsets, and it reads [h:m] exactly when the
    zone has the same offset at both instants. *)
Theorem fire_time_keeps_offset_of_now (z : Zone) (u : Z) (s : Restart1.State) :
  let t := Restart1.default_restart_time s in
  let now := datetime_now z u in
  dtime_valid t -> dt_valid now -> ordinal now < MAXORDINAL ->
  exists fire,
    Restart1.next_restart_time t now = Ok fire /\
    Restart1.jobs (snd (Restart1.schedule_restart now s))
    = Restart1.jobs s ++ [Restart1.mkJob (Restart1.DateTrigger fire) fire] /\
    hour fire = t_hour t /\ minute fire = t_minute t /\
    second fire = 0 /\ microsecond fire = 0 /\
    tzinfo fire = z u /\
    naive_micro (astimezone z fire)
    = naive_micro fire + (z (utc_micro fire) - z u) * 1000000 /\
    (astimezone z fire = fire <-> z (utc_micro fire) = z u).
Proof.
  intros t now Ht Hnow Hmax.
  assert (Hex : exists fire, Restart1.next_restart_time t now = Ok fire).
  { destruct (next_restart_time_cases t now Ht Hnow Hmax) as [[_ H] | [_ H]];
      eexists; exact H. }
  destruct Hex as [fire Hn]. exists fire.
  destruct (next_restart_time_valid t now fire Ht Hnow Hmax Hn)
    as (Hv & Htz & Hh & Hm & Hs & Hus).
  assert (Htz' : tzinfo fire = z u) by (rewrite Htz; reflexivity).
  split; [exact Hn | ].
  split; [apply schedule_restart_jobs; exact Hn | ].
  repeat (split; [assumption | ]).
  split.
  - unfold astimezone, datetime_now. rewrite naive_micro_of_micro.
    unfold utc_micro. rewrite Htz'. lia.
  - split.
    + intros E. rewrite <- Htz'. rewrite <- E at 2. reflexivity.
    + intros E. unfold astimezone, datetime_now. rewrite E, <- Htz'.
      unfold utc_micro.
      replace (naive_micro fire - tzinfo fire * 1000000 + tzinfo fire * 1000000)
        with (naive_micro fire) by lia.
      apply of_micro_naive_micro. exact Hv.
Qed.

(** The failing input: Europe/London, 2024-03-31 at 00:30 GMT, half an
    hour before the clocks go forward. The fire time armed is 23:30 with
    the GMT offset, which is 00:30 of the next day in London. *)
Lemma fire_time_keeps_offset_of_now_witness :
  let u := utc_micro (mkdt 738976 0 30 0 0 0) in
  let now := datetime_now Europe_London u in
  now = mkdt 738976 0 30 0 0 0 /\
  exists fire,
    Restart1.next_restart_time (mkdtime 23 30) now = Ok fire /\
    fire = mkdt 738976 23 30 0 0 0 /\
    astimezone Europe_London fire = mkdt 738977 0 30 0 0 3600 /\
    astimezone Europe_London fire <> fire.
Proof.
  intros u now. split; [reflexivity | ].
  destruct (fire_time_keeps_offset_of_now Europe_London u (Restart1.init 4242 now))
    as (fire & Hn & _ & _ & _ & _ & _ & _ & _ & Hiff).
  - unfold dtime_valid; cbn; lia.
  - unfold dt_valid, MINORDINAL, MAXORDINAL; cbn; lia.
  - unfold MAXORDINAL; cbn; lia.
  - exists fire. split; [exact Hn | ].
    assert (E : fire = mkdt 738976 23 30 0 0 0).
    { vm_compute in Hn. injection Hn as <-. reflexivity. }
    split; [exact E | ]. split; [rewrite E; reflexivity | ].
    intros H. apply Hiff in H. rewrite E in H. vm_compute in H. discriminate.
Defined.

(** ** Request gate (restart-1, [check_restart_status]) *)

Lemma check_restart_status_busy (s : Restart1.State) request call_next :
  Restart1.restart_in_progress s = true ->
  Restart1.check_restart_status request call_next s = (Ok (gate_response, []), s).
Proof.
  intros H. unfold Restart1.check_restart_status. eff_unfold.
  rewrite H. reflexivity.
Qed.

Lemma check_restart_status_idle (s : Restart1.State) request call_next :
  Restart1.restart_in_progress s = false ->
  Restart1.check_restart_status request call_next s = call_next request s.
Proof.
  intros H. unfold Restart1.check_restart_status. eff_unfold.
  rewrite H. destruct (call_next request s) as [[r | e] s']; reflexivity.
Qed.

(** No route of the application answers 503 by itself. *)
Lemma route_not_503 now request (s : Restart1.State) r ts s' :
  Restart1.route now request s = (Ok (r, ts), s') ->
  Restart1.status_code r <> 503.
Proof.
  unfold Restart1.route, Restart1.root, Restart1.status, Restart1.manual_restart,
    Restart1.configure_restart, Restart1.logger_info.
  destruct (String.eqb (req_path request) "/");
    [ destruct (req_method request); cbn; intros [= <- _ _]; cbn; lia | ].
  destruct (String.eqb (req_path request) "/status");
    [ destruct (req_method request); cbn; intros [= <- _ _]; cbn; lia | ].
  destruct (String.eqb (req_path request) "/admin/restart");
    [ destruct (req_method request); cbn; intros [= <- _ _]; cbn; lia | ].
  destruct (String.eqb (req_path request) "/admin/configure").
  2:{ destruct (existsb _ framework_pages);
        [ destruct (req_method request); cbn; intros [= <- _ _]; cbn; lia | ].
      destruct (existsb _ slash_redirects); cbn; intros [= <- _ _]; cbn; lia. }
  destruct (req_method request); try (cbn; intros [= <- _ _]; cbn; lia).
  destruct (req_interval_hours request) as [h | ];
    [ | cbn; intros [= <- _ _]; cbn; lia ].
  destruct (h <? 1); [ cbn; intros [= <- _ _]; cbn; lia | ].
  cbn. eff_unfold. cbn.
  destruct (Restart1.reschedule_jobs now h (Restart1.jobs s)); cbn;
    [ intros [= <- _ _]; cbn; lia | discriminate ].
Qed.

Lemma run_tasks_ok (ts : list Restart1.Task) (s : Restart1.State) :
  exists s', Restart1.run_tasks ts s = (Ok tt, s').
Proof.
  revert s. induction ts as [ | [p] ts IH]; intros s; cbn.
  - eexists; reflexivity.
  - eff_unfold. unfold Restart1.run_task. eff_unfold.
    destruct (Restart1.delayed_restart p s) as [[[] | e] s1]; apply IH.
Qed.

(** C1. On every request, whatever its route: while [restart_in_progress]
    holds the gate answers 503 without calling the handler, otherwise it
    hands the request to the handler and returns the handler's result
    unchanged; and the service's answer has status 503 exactly when
    [restart_in_progress] held as the request was intercepted. *)
Theorem gate_503_iff_in_progress (s : Restart1.State) (now : datetime) (request : Request) :
  (forall call_next, Restart1.restart_in_progress s = true ->
     Restart1.check_restart_status request call_next s = (Ok (gate_response, []), s)) /\
  (forall call_next, Restart1.restart_in_progress s = false ->
     Restart1.check_restart_status request call_next s = call_next request s) /\
  (exists r s', Restart1.handle_request now request s = (Ok r, s') /\
     (Restart1.status_code r = 503 <-> Restart1.restart_in_progress s = true)).
Proof.
  split; [ intros; now apply check_restart_status_busy | ].
  split; [ intros; now apply check_restart_status_idle | ].
  unfold Restart1.handle_request.
  destruct (Restart1.restart_in_progress s) eqn:Hp.
  - exists gate_response, s. eff_unfold.
    rewrite (check_restart_status_busy s request _ Hp). cbn.
    split; [reflexivity | split; reflexivity].
  - eff_unfold. rewrite (check_restart_status_idle s request _ Hp).
    destruct (Restart1.route now request s) as [[[r ts] | e] s1] eqn:Hr.
    + destruct (run_tasks_ok ts s1) as [s2 H2].
      cbn. rewrite H2. exists r, s2. split; [reflexivity | ].
      split; [ intros H; exfalso; revert H; eapply route_not_503; eassumption
             | discriminate ].
    + cbn. eexists _, s1. split; [reflexivity | ].
      cbn. split; [ lia | discriminate ].
Qed.

Lemma gate_503_iff_in_progress_witness :
  let busy := Restart1.set_restart_in_progress true (Restart1.init 4242 t_import) in
  let idle := Restart1.init 4242 t_import in
  let request := mkRequest GET "/anything/else" None in
  Restart1.check_restart_status request (Restart1.route t_manual) busy
  = (Ok (gate_response, []), busy) /\
  Restart1.check_restart_status request (Restart1.route t_manual) idle
  = (Ok (Restart1.mkResponse 404 (Restart1.CDetail "Not Found"), []), idle).
Proof.
  intros busy idle request. split.
  - apply (proj1 (gate_503_iff_in_progress busy t_manual request)). reflexivity.
  - rewrite (proj1 (proj2 (gate_503_iff_in_progress idle t_manual request)));
      reflexivity.
Defined.

(** ** The unbound name [time] (restart-1) *)

Lemma perform_restart_run (now : datetime) (s : Restart1.State) :
  Restart1.perform_restart now s = (Raise (NameError "time"), fired now s).
Proof. reflexivity. Qed.

Lemma run_job_run (now run_time : datetime) (s : Restart1.State) :
  Restart1.run_job now run_time s = (Ok tt, after_job now run_time s).
Proof.
  unfold Restart1.run_job, after_job.
  destruct (utc_micro now - utc_micro run_time <=? Restart1.MISFIRE_GRACE_US);
    reflexivity.
Qed.

Lemma after_job_busy (now run_time : datetime) (s : Restart1.State) :
  Restart1.restart_in_progress s = true ->
  Restart1.restart_in_progress (after_job now run_time s) = true.
Proof.
  intros H. unfold after_job.
  destruct (utc_micro now - utc_micro run_time <=? Restart1.MISFIRE_GRACE_US);
    [reflexivity | exact H].
Qed.

Lemma after_job_jobs (now run_time : datetime) (s : Restart1.State) :
  Restart1.jobs (after_job now run_time s) = Restart1.jobs s.
Proof.
  unfold after_job.
  destruct (utc_micro now - utc_micro run_time <=? Restart1.MISFIRE_GRACE_US);
    reflexivity.
Qed.

Lemma delayed_restart_run (p : Z) (s : Restart1.State) :
  Restart1.delayed_restart p s = (Raise (NameError "time"), s).
Proof. reflexivity. Qed.

Lemma manual_restart_run (s : Restart1.State) :
  Restart1.manual_restart s
  = (Ok (Restart1.json_200
           (Restart1.CRestarting "Application restarting..." (Restart1.pid s)),
         [Restart1.DelayedRestart (Restart1.pid s)]),
     Restart1.set_restart_in_progress true
       (Restart1.push_log (Restart1.ManualRestartTriggered (Restart1.pid s)) s)).
Proof. reflexivity. Qed.

Lemma handle_request_busy (now : datetime) (request : Request) (s : Restart1.State) :
  Restart1.restart_in_progress s = true ->
  Restart1.handle_request now request s = (Ok gate_response, s).
Proof.
  intros H. unfold Restart1.handle_request. eff_unfold.
  rewrite (check_restart_status_busy s request _ H). reflexivity.
Qed.

Lemma process_jobs_busy (now : datetime) (js : list Restart1.Job) (s : Restart1.State) :
  Restart1.restart_in_progress s = true ->
  Restart1.restart_in_progress (snd (Restart1.process_jobs now js s)) = true.
Proof.
  revert s. induction js as [ | j js IH]; intros s H; cbn; [exact H | ].
  destruct (dt_ge now (Restart1.next_run_time j)).
  - unfold Eff.bind at 1. rewrite run_job_run.
    set (s1 := after_job now (Restart1.next_run_time j) s).
    specialize (IH s1 (after_job_busy _ _ s H)). unfold Eff.bind.
    destruct (Restart1.process_jobs now js s1) as [[rest | e] s2]; cbn in *;
      [ | exact IH].
    destruct (Restart1.next_fire_time _ _ _); exact IH.
  - specialize (IH s H). unfold Eff.bind.
    destruct (Restart1.process_jobs now js s) as [[rest | e] s2]; exact IH.
Qed.

Lemma step_busy (e : Restart1.Event) (s : Restart1.State) :
  Restart1.restart_in_progress s = true ->
  Restart1.restart_in_progress (snd (Restart1.step e s)) = true /\
  match e with
  | Restart1.Http _ _ => fst (Restart1.step e s) = Some gate_response
  | _ => fst (Restart1.step e s) = None
  end.
Proof.
  intros H. destruct e as [now | | now request | now]; cbn.
  - split; [ | reflexivity].
    unfold Restart1.startup_event, Restart1.schedule_restart. eff_unfold. cbn.
    destruct (Restart1.next_restart_time _ now); exact H.
  - split; [exact H | reflexivity].
  - rewrite (handle_request_busy now request s H). split; [exact H | reflexivity].
  - split; [ | reflexivity].
    unfold Restart1.scheduler_wakeup. eff_unfold.
    destruct (Restart1.scheduler_running s); [ | exact H].
    pose proof (process_jobs_busy now (Restart1.jobs s) s H) as Hp.
    destruct (Restart1.process_jobs now (Restart1.jobs s) s) as [[js | e] s1];
      exact Hp.
Qed.

Lemma run_busy (evs : list Restart1.Event) (s : Restart1.State) :
  Restart1.restart_in_progress s = true ->
  Restart1.restart_in_progress (snd (Restart1.run evs s)) = true /\
  fst (Restart1.run evs s) = repeat gate_response (http_count evs).
Proof.
  revert s. induction evs as [ | e evs IH]; intros s H; cbn; [split; [exact H | reflexivity] | ].
  destruct (step_busy e s H) as [H1 H2].
  destruct (Restart1.step e s) as [r s1]; cbn in H1, H2.
  destruct (IH s1 H1) as [H3 H4].
  destruct (Restart1.run evs s1) as [rs s2]; cbn in *.
  split; [exact H3 | ].
  destruct e; subst r rs; reflexivity.
Qed.

(** C10. [time] is not bound in restart-1's module namespace. A scheduled
    fire therefore sends SIGTERM and stops with [NameError] at the sleep,
    before the SIGKILL; the task queued by a manual restart stops with
    [NameError] before any signal, after the handler has already set
    [restart_in_progress]; and from then on, whatever happens to a process
    that stays alive, each request on each route is answered 503. *)
Theorem time_unbound_in_restart1 (s : Restart1.State) (now : datetime) :
  existsb (String.eqb "time") Restart1.module_names = false /\
  (exists s', Restart1.perform_restart now s = (Raise (NameError "time"), s') /\
     Restart1.sent s' = Restart1.sent s ++ [(Restart1.pid s, SIGTERM)] /\
     Restart1.restart_in_progress s' = true) /\
  (forall p s0, Restart1.delayed_restart p s0 = (Raise (NameError "time"), s0)) /\
  (Restart1.restart_in_progress s = false ->
   forall q, exists s',
     Restart1.handle_request now (mkRequest POST "/admin/restart" q) s
     = (Ok (Restart1.json_200
              (Restart1.CRestarting "Application restarting..." (Restart1.pid s))), s') /\
     Restart1.sent s' = Restart1.sent s /\
     Restart1.restart_in_progress s' = true /\
     forall evs,
       Restart1.restart_in_progress (snd (Restart1.run evs s')) = true /\
       fst (Restart1.run evs s') = repeat gate_response (http_count evs)).
Proof.
  split; [reflexivity | ].
  split; [ exists (fired now s); repeat split; reflexivity | ].
  split; [ intros; apply delayed_restart_run | ].
  intros H q.
  unfold Restart1.handle_request. eff_unfold.
  rewrite (check_restart_status_idle s _ _ H).
  unfold Restart1.route; cbn -[Restart1.manual_restart Restart1.run_tasks].
  rewrite manual_restart_run. cbn.
  eexists. split; [reflexivity | ].
  split; [reflexivity | ]. split; [reflexivity | ].
  intros evs. apply run_busy. reflexivity.
Qed.

Lemma time_unbound_in_restart1_witness :
  exists s',
    Restart1.handle_request (mkdt 739068 9 0 5 0 3600)
      (mkRequest POST "/admin/restart" None)
      (Restart1.init 4242 (mkdt 739068 9 0 0 0 3600))
    = (Ok (Restart1.json_200 (Restart1.CRestarting "Application restarting..." 4242)), s') /\
    Restart1.sent s' = [] /\ Restart1.restart_in_progress s' = true.
Proof.
  destruct (time_unbound_in_restart1
              (Restart1.init 4242 (mkdt 739068 9 0 0 0 3600))
              (mkdt 739068 9 0 5 0 3600)) as (_ & _ & _ & H).
  destruct (H eq_refl None) as (s' & H1 & H2 & H3 & _).
  exists s'. repeat split; assumption.
Defined.

(** ** The watchdog's periodic job (restart-3) *)

Lemma find_fastapi_pid_run (s : Restart3.State) :
  Restart3.find_fastapi_pid s
  = match Restart3.first_uvicorn (Restart3.procs s) with
    | Some p => (Ok (Some p), Restart3.push_log (Restart3.InfoFound p) s)
    | None => (Ok None, Restart3.push_log Restart3.WarnNoProcessFound s)
    end.
Proof.
  unfold Restart3.find_fastapi_pid, Restart3.logger. eff_unfold.
  destruct (Restart3.first_uvicorn (Restart3.procs s)); reflexivity.
Qed.

Section Frame.
Local Open Scope eff_scope.

Lemma keeps_bind {A B} (m : Restart3.M A) (k : A -> Restart3.M B) :
  keeps_next_run m -> (forall a, keeps_next_run (k a)) ->
  keeps_next_run (x <- m ;; k x).
Proof.
  intros Hm Hk s. unfold Eff.bind. specialize (Hm s).
  destruct (m s) as [[a | e] s1]; cbn in *; [ | exact Hm].
  now rewrite Hk.
Qed.

Lemma keeps_try {A} (m : Restart3.M A) (h : Exn -> Restart3.M A) :
  keeps_next_run m -> (forall e, keeps_next_run (h e)) ->
  keeps_next_run (Eff.try_except m h).
Proof.
  intros Hm Hh s. unfold Eff.try_except. specialize (Hm s).
  destruct (m s) as [[a | e] s1]; cbn in *; [exact Hm | ].
  now rewrite Hh.
Qed.

Lemma keeps_logger (m : Restart3.LogMsg) : keeps_next_run (Restart3.logger m).
Proof. intros s. reflexivity. Qed.

Lemma keeps_interfere f : keeps_next_run (Restart3.interfere f).
Proof. intros s. reflexivity. Qed.

Lemma keeps_ret {A} (a : A) : keeps_next_run (Eff.ret a).
Proof. intros s. reflexivity. Qed.

Lemma keeps_os_kill (p : Z) (sig : Signal) : keeps_next_run (Restart3.os_kill p sig).
Proof.
  intros s. unfold Restart3.os_kill. eff_unfold.
  destruct (negb (Restart3.pid_exists p s)); [reflexivity | ].
  destruct (negb (Restart3.killable p s)); [reflexivity | ].
  destruct sig; reflexivity.
Qed.

Lemma keeps_time_sleep secs f : keeps_next_run (Restart3.time_sleep secs f).
Proof. intros s. reflexivity. Qed.

Lemma keeps_start_fastapi : keeps_next_run Restart3.start_fastapi.
Proof.
  intros s. unfold Restart3.start_fastapi, Restart3.popen, Restart3.logger.
  eff_unfold. cbn. destruct (Restart3.launcher_ok s); reflexivity.
Qed.

Lemma keeps_find_fastapi_pid : keeps_next_run Restart3.find_fastapi_pid.
Proof.
  intros s. rewrite find_fastapi_pid_run.
  destruct (Restart3.first_uvicorn (Restart3.procs s)); reflexivity.
Qed.

Lemma keeps_restart_fastapi env : keeps_next_run (Restart3.restart_fastapi env).
Proof.
  unfold Restart3.restart_fastapi.
  apply keeps_bind; [apply keeps_find_fastapi_pid | ].
  intros [p | ].
  - destruct (Restart3.truthy (Some p)).
    + apply keeps_bind; [apply keeps_logger | intros _].
      apply keeps_try.
      * apply keeps_bind; [apply keeps_interfere | intros _].
        apply keeps_bind; [apply keeps_os_kill | intros _].
        apply keeps_bind; [apply keeps_logger | intros _].
        apply keeps_bind; [apply keeps_time_sleep | intros _].
        apply keeps_bind; [intros s; reflexivity | intros s1].
        apply keeps_bind; [ | intros _; apply keeps_start_fastapi].
        destruct (Restart3.pid_exists p s1); [ | apply keeps_ret].
        apply keeps_bind; [apply keeps_logger | intros _].
        apply keeps_bind; [apply keeps_interfere | intros _].
        apply keeps_os_kill.
      * intros []; apply keeps_logger.
    + apply keeps_bind; [apply keeps_logger | intros _].
      apply keeps_start_fastapi.
  - apply keeps_bind; [apply keeps_logger | intros _].
    apply keeps_start_fastapi.
Qed.

Lemma returns_start_fastapi : returns Restart3.start_fastapi.
Proof.
  intros s. unfold Restart3.start_fastapi, Restart3.popen, Restart3.logger.
  eff_unfold. cbn. destruct (Restart3.launcher_ok s); eexists; reflexivity.
Qed.

Lemma returns_after_logger {A} (m : Restart3.LogMsg) (k : Restart3.M A) :
  returns k -> returns (Restart3.logger m ;; k).
Proof. intros Hk s. unfold Restart3.logger. eff_unfold. apply Hk. Qed.

Lemma returns_try {A} (m : Restart3.M A) (h : Exn -> Restart3.M A) :
  (forall e, returns (h e)) -> returns (Eff.try_except m h).
Proof.
  intros Hh s. unfold Eff.try_except.
  destruct (m s) as [[a | e] s1]; [eexists; reflexivity | apply Hh].
Qed.

Lemma returns_restart_fastapi env : returns (Restart3.restart_fastapi env).
Proof.
  intros s. unfold Restart3.restart_fastapi.
  unfold Eff.bind at 1. rewrite find_fastapi_pid_run.
  destruct (Restart3.first_uvicorn (Restart3.procs s)) as [p | ].
  - destruct (Restart3.truthy (Some p)).
    + apply returns_after_logger. apply returns_try.
      intros []; intros s'; eexists; reflexivity.
    + apply returns_after_logger. apply returns_start_fastapi.
  - apply returns_after_logger. apply returns_start_fastapi.
Qed.
End Frame.

(** After a due run the job is armed again, one period after the run ended. *)
Lemma run_pending_rearms (h t : Z) (env : Restart3.Interference) (s : Restart3.State) :
  Restart3.next_run s = Some t -> t <= Restart3.clock s ->
  exists s',
    Restart3.restart_fastapi env s = (Ok tt, s') /\
    Restart3.run_pending h env s
    = (Ok tt, Restart3.set_next_run (Some (Restart3.clock s' + h * 3600)) s').
Proof.
  intros Hn Hdue. unfold Restart3.run_pending. eff_unfold. rewrite Hn.
  apply Z.leb_le in Hdue. rewrite Hdue.
  destruct (returns_restart_fastapi env s) as [[] Hr].
  destruct (Restart3.restart_fastapi env s) as [r s']. cbn in Hr. subst r.
  exists s'. split; reflexivity.
Qed.




(** ** What a scheduled fire does (restart-1) *)

Lemma process_jobs_keeps_store (now : datetime) (js : list Restart1.Job)
    (s : Restart1.State) :
  Restart1.jobs (snd (Restart1.process_jobs now js s)) = Restart1.jobs s.
Proof.
  revert s. induction js as [ | j js IH]; intros s; cbn; [reflexivity | ].
  destruct (dt_ge now (Restart1.next_run_time j)).
  - unfold Eff.bind at 1. rewrite run_job_run.
    set (s1 := after_job now (Restart1.next_run_time j) s).
    specialize (IH s1).
    replace (Restart1.jobs s1) with (Restart1.jobs s) in IH
      by (symmetry; apply after_job_jobs).
    unfold Eff.bind.
    destruct (Restart1.process_jobs now js s1) as [[rest | e] s2]; cbn in *;
      [ | exact IH].
    destruct (Restart1.next_fire_time _ _ _); exact IH.
  - specialize (IH s). unfold Eff.bind.
    destruct (Restart1.process_jobs now js s) as [[rest | e] s2]; exact IH.
Qed.

(** One-shot jobs that are due are run and dropped, the others are kept. *)
Lemma process_jobs_date (now : datetime) (js : list Restart1.Job) (s : Restart1.State) :
  forallb is_date js = true ->
  fst (Restart1.process_jobs now js s) = Ok (filter (not_due now) js).
Proof.
  revert s. induction js as [ | j js IH]; intros s Hd; cbn; [reflexivity | ].
  cbn in Hd. apply andb_prop in Hd. destruct Hd as [Hj Hd].
  unfold not_due at 1.
  destruct (dt_ge now (Restart1.next_run_time j)); cbn [negb].
  - unfold Eff.bind at 1. rewrite run_job_run.
    set (s1 := after_job now (Restart1.next_run_time j) s).
    specialize (IH s1 Hd). unfold Eff.bind.
    destruct (Restart1.process_jobs now js s1) as [[rest | e] s2]; cbn in *;
      [ | discriminate].
    unfold is_date in Hj.
    destruct (Restart1.trigger j); [ | discriminate]. cbn. exact IH.
  - specialize (IH s Hd). unfold Eff.bind.
    destruct (Restart1.process_jobs now js s) as [[rest | e] s2]; cbn in *;
      [ | discriminate].
    injection IH as ->. reflexivity.
Qed.

Lemma scheduler_wakeup_date (now : datetime) (s : Restart1.State) :
  Restart1.scheduler_running s = true ->
  forallb is_date (Restart1.jobs s) = true ->
  Restart1.jobs (snd (Restart1.scheduler_wakeup now s))
  = filter (not_due now) (Restart1.jobs s).
Proof.
  intros Hr Hd. unfold Restart1.scheduler_wakeup. eff_unfold. rewrite Hr.
  pose proof (process_jobs_date now (Restart1.jobs s) s Hd) as H.
  destruct (Restart1.process_jobs now (Restart1.jobs s) s) as [[js | e] s1];
    cbn in H; [ | discriminate].
  injection H as ->. reflexivity.
Qed.





(** ** Triggers during a restart in progress *)

(** C2, refuted as stated: in restart-1 a scheduled fire that arrives while
    [restart_in_progress] is already true (set by a manual trigger) does
    not stand back, it sends SIGTERM; in restart-2 two manual triggers half
    a second apart each send their SIGTERM. *)
Lemma fire_during_restart_signals :
  let s1 := snd (Restart1.step (Restart1.Startup t_import) (Restart1.init 4242 t_import)) in
  let s2 := snd (Restart1.step (Restart1.Http t_manual post_restart) s1) in
  let s3 := snd (Restart1.step (Restart1.SchedulerWakeup t_fire) s2) in
  let r := snd (Restart2.run [Restart2.Startup 0;
                              Restart2.Http 60000000 post_restart;
                              Restart2.Http 60500000 post_restart]
                  (Restart2.init 4242 0)) in
  Restart1.restart_in_progress s2 = true /\
  Restart1.sent s2 = [] /\
  Restart1.sent s3 = [(4242, SIGTERM)] /\
  Restart2.sent r = [(61000000, 4242, SIGTERM); (61500000, 4242, SIGTERM)].
Proof. vm_compute. repeat split; reflexivity. Qed.

Lemma scheduler_wakeup_single (now : datetime) (j : Restart1.Job) (s : Restart1.State) :
  Restart1.scheduler_running s = true ->
  Restart1.jobs s = [j] ->
  dt_ge now (Restart1.next_run_time j) = true ->
  utc_micro now - utc_micro (Restart1.next_run_time j) <= Restart1.MISFIRE_GRACE_US ->
  Restart1.sent (snd (Restart1.scheduler_wakeup now s))
  = Restart1.sent s ++ [(Restart1.pid s, SIGTERM)].
Proof.
  intros Hr Hj Hd Hg. unfold Restart1.scheduler_wakeup. eff_unfold.
  rewrite Hr, Hj. cbn [Restart1.process_jobs]. rewrite Hd.
  eff_unfold. rewrite run_job_run. unfold after_job.
  apply Z.leb_le in Hg. rewrite Hg. cbn.
  destruct (Restart1.next_fire_time _ _ _); reflexivity.
Qed.

Lemma restart2_manual_restart (now : Z) (q : option Z) (s : Restart2.State) :
  Restart2.handle_request now (mkRequest POST "/admin/restart" q) s
  = (Ok (Restart2.json_200
           (Restart2.CRestarting "Application restarting..." (Restart2.pid s))),
     Restart2.push_sent (now + Restart2.SECOND, Restart2.pid s, SIGTERM)
       (Restart2.push_log (Restart2.ManualRestartTriggered (Restart2.pid s)) s)).
Proof. reflexivity. Qed.

(** C2, amended. The code has no at-most-once guard of its own. In
    restart-1 a request that arrives while [restart_in_progress] is true,
    a manual trigger included, is answered 503 by the gate and starts
    nothing, while a scheduled fire (run within the scheduler's grace
    time) does not look at [restart_in_progress] and sends SIGTERM whatever
    its value; in restart-2, which has no such flag, every manual trigger
    sends its SIGTERM one second later. *)
Theorem triggers_are_not_guarded (s : Restart1.State) (now : datetime)
    (s2 : Restart2.State) (now2 : Z) :
  (Restart1.restart_in_progress s = true ->
   forall request, Restart1.handle_request now request s = (Ok gate_response, s)) /\
  (forall j, Restart1.scheduler_running s = true ->
     Restart1.jobs s = [j] ->
     dt_ge now (Restart1.next_run_time j) = true ->
     utc_micro now - utc_micro (Restart1.next_run_time j) <= Restart1.MISFIRE_GRACE_US ->
     Restart1.sent (snd (Restart1.scheduler_wakeup now s))
     = Restart1.sent s ++ [(Restart1.pid s, SIGTERM)]) /\
  (forall q,
     Restart2.sent (snd (Restart2.handle_request now2 (mkRequest POST "/admin/restart" q) s2))
     = Restart2.sent s2 ++ [(now2 + Restart2.SECOND, Restart2.pid s2, SIGTERM)]).
Proof.
  split; [ intros H request; now apply handle_request_busy | ].
  split; [ intros j; apply scheduler_wakeup_single | ].
  intros q. rewrite restart2_manual_restart. reflexivity.
Qed.

Lemma triggers_are_not_guarded_witness :
  let s1 := snd (Restart1.step (Restart1.Startup t_import) (Restart1.init 4242 t_import)) in
  let s2 := snd (Restart1.step (Restart1.Http t_manual post_restart) s1) in
  Restart1.handle_request t_configure post_restart s2 = (Ok gate_response, s2) /\
  Restart1.sent (snd (Restart1.scheduler_wakeup t_fire s2)) = [(4242, SIGTERM)].
Proof.
  intros s1 s2.
  destruct (triggers_are_not_guarded s2 t_configure (Restart2.init 4242 0) 0)
    as (Hgate & _ & _).
  destruct (triggers_are_not_guarded s2 t_fire (Restart2.init 4242 0) 0)
    as (_ & Hfire & _).
  split.
  - apply Hgate. reflexivity.
  - rewrite (Hfire (Restart1.mkJob (Restart1.DateTrigger t_fire) t_fire));
      try reflexivity.
    vm_compute. discriminate.
Defined.

(** ** Rejected configuration *)

(** C3, refuted as stated: [interval_hours = 0] is answered with status
    200, in both variants, not 400. *)
Lemma configure_zero_answers_200 :
  (exists r,
     fst (Restart1.handle_request t_configure (post_configure 0)
            (Restart1.init 4242 t_import)) = Ok r /\
     Restart1.status_code r = 200 /\ Restart1.status_code r <> 400) /\
  (exists r,
     fst (Restart2.handle_request 3600000000 (post_configure 0)
            (Restart2.init 4242 0)) = Ok r /\
     Restart2.status_code r = 200 /\ Restart2.status_code r <> 400).
Proof.
  split; eexists; (split; [reflexivity | split; [reflexivity | discriminate]]).
Qed.

(** C3, amended. A call to POST /admin/configure with [interval_hours < 1]
    is rejected synchronously: the handler returns the body
    [{"error": "Interval must be at least 1 hour"}] with the framework's
    default status 200, queues nothing and leaves the whole state (restart
    interval, restart state, jobs or threads) exactly as it was; the same
    holds for the request as a whole, which in restart-1 is answered 503 by
    the gate instead when a restart is in progress. *)
Theorem configure_below_one_rejected (h : Z) (s : Restart1.State) (now : datetime)
    (s2 : Restart2.State) (now2 : Z) :
  h < 1 ->
  Restart1.configure_restart now h s
  = (Ok (Restart1.mkResponse 200 (Restart1.CError "Interval must be at least 1 hour"), []), s) /\
  Restart2.configure_restart now2 h s2
  = (Ok (Restart2.mkResponse 200 (Restart2.CError "Interval must be at least 1 hour"), []), s2) /\
  Restart1.handle_request now (post_configure h) s
  = (Ok (if Restart1.restart_in_progress s then gate_response
         else Restart1.mkResponse 200 (Restart1.CError "Interval must be at least 1 hour")),
     s) /\
  Restart2.handle_request now2 (post_configure h) s2
  = (Ok (Restart2.mkResponse 200 (Restart2.CError "Interval must be at least 1 hour")), s2).
Proof.
  intros Hh. apply Z.ltb_lt in Hh.
  assert (H1 : Restart1.configure_restart now h s
     = (Ok (Restart1.mkResponse 200 (Restart1.CError "Interval must be at least 1 hour"), []), s))
    by (unfold Restart1.configure_restart; rewrite Hh; reflexivity).
  assert (H2 : Restart2.configure_restart now2 h s2
     = (Ok (Restart2.mkResponse 200 (Restart2.CError "Interval must be at least 1 hour"), []), s2))
    by (unfold Restart2.configure_restart; rewrite Hh; reflexivity).
  split; [exact H1 | ]. split; [exact H2 | ]. split.
  - destruct (Restart1.restart_in_progress s) eqn:Hp.
    + now apply handle_request_busy.
    + unfold Restart1.handle_request. eff_unfold.
      rewrite (check_restart_status_idle s _ _ Hp).
      unfold Restart1.route, post_configure; cbn -[Restart1.configure_restart].
      rewrite H1. reflexivity.
  - unfold Restart2.handle_request. eff_unfold.
    unfold Restart2.route, post_configure; cbn -[Restart2.configure_restart].
    rewrite H2. reflexivity.
Qed.

Lemma configure_below_one_rejected_witness :
  Restart2.handle_request 3600000000 (post_configure (-3)) (Restart2.init 4242 0)
  = (Ok (Restart2.mkResponse 200 (Restart2.CError "Interval must be at least 1 hour")),
     Restart2.init 4242 0).
Proof.
  apply (configure_below_one_rejected (-3) (Restart1.init 4242 t_import) t_configure
           (Restart2.init 4242 0) 3600000000).
  lia.
Defined.

(** ** Graceful, then forceful (restart-3, [restart_fastapi]) *)

Lemma start_fastapi_sent (s : Restart3.State) :
  fst (Restart3.start_fastapi s) = Ok tt /\
  Restart3.sent (snd (Restart3.start_fastapi s)) = Restart3.sent s.
Proof.
  unfold Restart3.start_fastapi, Restart3.popen, Restart3.logger. eff_unfold. cbn.
  destruct (Restart3.launcher_ok s); cbn; split; reflexivity.
Qed.

Lemma restart_fastapi_sent (env : Restart3.Interference) (s : Restart3.State) :
  Restart3.sent (snd (Restart3.restart_fastapi env s))
  = Restart3.sent s ++ signals_of env (Restart3.procs s).
Proof.
  unfold signals_of, Restart3.restart_fastapi.
  unfold Eff.bind at 1. rewrite find_fastapi_pid_run.
  destruct (Restart3.first_uvicorn (Restart3.procs s)) as [p | ].
  2:{ unfold Restart3.logger. eff_unfold. cbn -[Restart3.start_fastapi].
      rewrite (proj2 (start_fastapi_sent _)). cbn. now rewrite app_nil_r. }
  unfold Restart3.truthy.
  unfold Restart3.logger at 1. eff_unfold. cbn -[Restart3.start_fastapi Restart3.os_kill].
  destruct (p =? 0); cbn -[Restart3.start_fastapi Restart3.os_kill].
  { rewrite (proj2 (start_fastapi_sent _)). cbn. now rewrite app_nil_r. }
  unfold Restart3.os_kill at 1. eff_unfold.
  unfold Restart3.pid_exists at 1, Restart3.killable at 1.
  cbn -[Restart3.start_fastapi Restart3.os_kill].
  fold (has_pid p (Restart3.before_term env (Restart3.procs s))).
  fold (can_signal p (Restart3.before_term env (Restart3.procs s))).
  destruct (has_pid p _); cbn -[Restart3.start_fastapi Restart3.os_kill];
    [ | now rewrite app_nil_r ].
  destruct (can_signal p _); cbn -[Restart3.start_fastapi Restart3.os_kill];
    [ | now rewrite app_nil_r ].
  set (ps2 := Restart3.during_sleep env (Restart3.before_term env (Restart3.procs s))).
  fold (has_pid p ps2).
  destruct (has_pid p ps2); cbn -[Restart3.start_fastapi Restart3.os_kill].
  2:{ match goal with |- context [Restart3.start_fastapi ?x] =>
        pose proof (start_fastapi_sent x) as [Hok Hs];
        destruct (Restart3.start_fastapi x) as [[[] | e] sx]; cbn in *;
        [ rewrite Hs; reflexivity | discriminate ] end. }
  unfold Restart3.os_kill, Restart3.pid_exists, Restart3.killable. eff_unfold.
  cbn -[Restart3.start_fastapi].
  fold (has_pid p (Restart3.before_kill env ps2)).
  fold (can_signal p (Restart3.before_kill env ps2)).
  destruct (has_pid p (Restart3.before_kill env ps2)); cbn -[Restart3.start_fastapi];
    [ | reflexivity ].
  destruct (can_signal p (Restart3.before_kill env ps2)); cbn -[Restart3.start_fastapi];
    [ | reflexivity ].
  match goal with |- context [Restart3.start_fastapi ?x] =>
    pose proof (start_fastapi_sent x) as [Hok Hs];
    destruct (Restart3.start_fastapi x) as [[[] | e] sx]; cbn in *;
    [ rewrite Hs, <- app_assoc; reflexivity | discriminate ] end.
Qed.

Lemma can_signal_has_pid (p : Z) (ps : list Restart3.Proc) :
  can_signal p ps = true -> has_pid p ps = true.
Proof.
  unfold can_signal, has_pid. rewrite !existsb_exists.
  intros (q & Hin & Hq). exists q. split; [exact Hin | ].
  apply andb_prop in Hq. tauto.
Qed.

Lemma first_uvicorn_alive (ps : list Restart3.Proc) (p : Z) :
  Restart3.first_uvicorn ps = Some p -> target_alive p ps = true.
Proof.
  unfold target_alive.
  induction ps as [ | q ps IH]; cbn [Restart3.first_uvicorn existsb]; [discriminate | ].
  destruct (Restart3.is_uvicorn q) eqn:Hq.
  - intros [= <-]. now rewrite Z.eqb_refl.
  - intros H. rewrite (IH H). apply orb_true_r.
Qed.

(** C6, where the code departs from the specification. When the grace
    period is over the code tests [psutil.pid_exists(pid)]: whether the pid
    is in the process table, not whether the process it located is still
    running. If the target, running when it was located, has exited within
    the grace period but its pid is still listed (the entry of the exited
    process, which nobody reaped yet, or another process that was given
    the pid) and may be signalled, the code sends SIGKILL after SIGTERM. *)
Theorem sigkill_after_target_exit (env : Restart3.Interference) (s : Restart3.State)
    (p : Z) :
  let ps1 := Restart3.before_term env (Restart3.procs s) in
  let ps2 := Restart3.during_sleep env ps1 in
  let ps3 := Restart3.before_kill env ps2 in
  Restart3.first_uvicorn (Restart3.procs s) = Some p ->
  p <> 0 ->
  can_signal p ps1 = true ->
  target_alive p ps2 = false ->
  has_pid p ps2 = true ->
  can_signal p ps3 = true ->
  target_alive p (Restart3.procs s) = true /\
  exists s',
    Restart3.restart_fastapi env s = (Ok tt, s') /\
    Restart3.sent s' = Restart3.sent s ++ [(p, SIGTERM); (p, SIGKILL)].
Proof.
  intros ps1 ps2 ps3 Hf Hp Hc Hexited Hlisted Hck.
  split; [exact (first_uvicorn_alive _ _ Hf) | ].
  destruct (returns_restart_fastapi env s) as [[] Hr].
  pose proof (restart_fastapi_sent env s) as Hs.
  destruct (Restart3.restart_fastapi env s) as [r s']. cbn in Hr, Hs. subst r.
  exists s'. split; [reflexivity | ].
  rewrite Hs. unfold signals_of. rewrite Hf. cbv zeta.
  fold ps1. fold ps2. fold ps3.
  apply Z.eqb_neq in Hp.
  rewrite Hp, Hc, (can_signal_has_pid _ _ Hc), Hlisted, Hck,
    (can_signal_has_pid _ _ Hck).
  reflexivity.
Qed.

(** The failing input: the watchdog starts on an empty process table and
    launches uvicorn itself (pid 101); at the next restart that child exits
    on SIGTERM within the five seconds and, not being reaped, stays in the
    table; SIGKILL follows. *)
Lemma sigkill_after_target_exit_witness :
  let s0 := Restart3.mkState [] 0 101 true None [] [] [] in
  let s := snd (Restart3.schedule_restarts_setup 6 s0) in
  let env := Restart3.mkInterference (fun ps => ps) (exits_unreaped 101) (fun ps => ps) in
  Restart3.procs s = [Restart3.mkProc 101 (Some Restart3.uvicorn_command) true] /\
  target_alive 101 (Restart3.during_sleep env (Restart3.procs s)) = false /\
  Restart3.sent (snd (Restart3.restart_fastapi env s)) = [(101, SIGTERM); (101, SIGKILL)].
Proof.
  intros s0 s env.
  split; [reflexivity | ]. split; [reflexivity | ].
  destruct (sigkill_after_target_exit env s 101) as (_ & s' & H & Hs);
    [ reflexivity | lia | reflexivity | reflexivity | reflexivity | reflexivity | ].
  rewrite H. exact Hs.
Defined.

(** ** The target is gone when the signal is sent (restart-3) *)

(** C9, where the code departs from the specification. When the process that was
    located has left the process table by the time SIGTERM is sent, the
    exception is caught and the call returns normally, but the event is
    logged as an error and [start_fastapi] is not reached: no signal is
    sent, nothing is launched, and the table is left without the target. *)
Theorem race_skips_relaunch (env : Restart3.Interference) (s : Restart3.State) (p : Z) :
  Restart3.first_uvicorn (Restart3.procs s) = Some p ->
  p <> 0 ->
  has_pid p (Restart3.before_term env (Restart3.procs s)) = false ->
  exists s',
    Restart3.restart_fastapi env s = (Ok tt, s') /\
    Restart3.log s' = Restart3.log s ++ race_log p /\
    Restart3.sent s' = Restart3.sent s /\
    Restart3.spawned s' = Restart3.spawned s /\
    Restart3.procs s' = Restart3.before_term env (Restart3.procs s).
Proof.
  intros Hf Hp Hgone.
  unfold Restart3.restart_fastapi.
  unfold Eff.bind at 1. rewrite find_fastapi_pid_run, Hf.
  unfold Restart3.truthy. apply Z.eqb_neq in Hp. rewrite Hp.
  unfold Restart3.logger at 1. eff_unfold.
  cbn -[Restart3.start_fastapi Restart3.os_kill].
  unfold Restart3.os_kill at 1. eff_unfold.
  cbn -[Restart3.start_fastapi Restart3.os_kill].
  fold (has_pid p (Restart3.before_term env (Restart3.procs s))).
  rewrite Hgone. cbn.
  eexists. split; [reflexivity | ]. cbn.
  repeat rewrite <- app_assoc. repeat split; reflexivity.
Qed.

(** The failing input: uvicorn, pid 100, exits between the lookup and the
    signal. With the target absent from the start, the same function
    launches a new instance. *)
Lemma race_skips_relaunch_witness :
  let target := Restart3.mkProc 100 (Some ["uvicorn"; "main:app"]) true in
  let exits := Restart3.mkInterference (fun _ => []) (fun ps => ps) (fun ps => ps) in
  let s := Restart3.mkState [target] 0 101 true None [] [] [] in
  let s_none := Restart3.mkState [] 0 101 true None [] [] [] in
  (exists s', Restart3.restart_fastapi exits s = (Ok tt, s') /\
     Restart3.spawned s' = [] /\ Restart3.procs s' = [] /\
     existsb Restart3.is_error (Restart3.log s') = true) /\
  Restart3.spawned (snd (Restart3.restart_fastapi exits s_none)) = [101].
Proof.
  intros target exits s s_none. split; [ | reflexivity ].
  destruct (race_skips_relaunch exits s 100) as (s' & H & Hl & _ & Hsp & Hpr).
  - reflexivity.
  - lia.
  - reflexivity.
  - exists s'. repeat split; try assumption. rewrite Hl. reflexivity.
Defined.

(** ** Fixed-interval scheduling (restart-2) *)

Lemma armed_of_app (l1 l2 : list Restart2.ThreadState) :
  Restart2.armed_of (l1 ++ l2) = Restart2.armed_of l1 ++ Restart2.armed_of l2.
Proof.
  induction l1 as [ | [w | ] l1 IH]; cbn; [reflexivity | now rewrite IH | exact IH].
Qed.

Lemma nth_error_last {A} (l : list A) (x : A) :
  nth_error (l ++ [x]) (List.length l) = Some x.
Proof. induction l as [ | y l IH]; cbn; [reflexivity | exact IH]. Qed.

Lemma thread_start_run (now : Z) (s : Restart2.State) :
  Restart2.thread_start now s
  = (Ok (List.length (Restart2.threads s)),
     Restart2.set_threads (Restart2.threads s ++ [Restart2.scheduled_restart_task_start now s]) s).
Proof. reflexivity. Qed.

Lemma thread_wakes_sleeping (i : nat) (w : Z) (s : Restart2.State) :
  nth_error (Restart2.threads s) i = Some (Restart2.Sleeping w) ->
  Restart2.thread_wakes i s
  = (Ok tt,
     Restart2.set_threads (Restart2.set_nth i Restart2.Finished (Restart2.threads s))
       (Restart2.push_sent (w, Restart2.pid s, SIGTERM)
          (Restart2.set_last_restart_time w
             (Restart2.push_log (Restart2.PerformingScheduledRestart (Restart2.pid s)) s)))).
Proof.
  intros H. unfold Restart2.thread_wakes. eff_unfold. rewrite H. reflexivity.
Qed.

Lemma time_sleep_check_hours (h : Z) :
  0 <= h <= MAX_SLEEP_HOURS -> Restart2.time_sleep_check (h * 3600) = Ok tt.
Proof.
  unfold MAX_SLEEP_HOURS, Restart2.time_sleep_check. intros [H0 H1].
  destruct (Z.ltb_spec (h * 3600 * 1000000000) (- 9223372036854775808)); [lia | ].
  destruct (Z.ltb_spec 9223372036854775807 (h * 3600 * 1000000000)); [lia | ].
  destruct (Z.ltb_spec (h * 3600) 0); [lia | reflexivity].
Qed.

Lemma time_sleep_check_too_long (h : Z) :
  MAX_SLEEP_HOURS < h -> Restart2.time_sleep_check (h * 3600) = Raise OverflowError.
Proof.
  unfold MAX_SLEEP_HOURS, Restart2.time_sleep_check. intros H.
  destruct (Z.ltb_spec 9223372036854775807 (h * 3600 * 1000000000)); [ | lia].
  now rewrite orb_true_r.
Qed.






(** ** Reconfiguration *)

(** restart-1: every job is re-armed in place, one interval after the
    call, so the number of armed fire times does not change. *)
Lemma reschedule_jobs_ok (now t : datetime) (h : Z) (js : list Restart1.Job) :
  dt_add now (timedelta_hours h) = Ok t ->
  Restart1.reschedule_jobs now h js
  = Ok (map (fun _ => Restart1.mkJob (Restart1.IntervalTrigger (timedelta_hours h)) t) js).
Proof.
  intros H. induction js as [ | j js IH]; cbn; [reflexivity | ].
  unfold Restart1.job_reschedule. rewrite H, IH. reflexivity.
Qed.


(** The instant a successful [d + timedelta] denotes. *)
Lemma dt_add_utc (d t : datetime) (delta_us : Z) :
  dt_add d delta_us = Ok t -> utc_micro t = utc_micro d + delta_us.
Proof.
  unfold dt_add.
  destruct ((MINORDINAL <=? _) && (_ <=? MAXORDINAL)); [ | discriminate].
  intros [= <-]. unfold utc_micro. rewrite naive_micro_of_micro. cbn. lia.
Qed.

Lemma restart1_configure_rearms_in_place (s : Restart1.State) (now t : datetime) (h : Z) :
  1 <= h ->
  dt_add now (timedelta_hours h) = Ok t ->
  Restart1.jobs (snd (Restart1.configure_restart now h s))
  = map (fun _ => Restart1.mkJob (Restart1.IntervalTrigger (timedelta_hours h)) t)
        (Restart1.jobs s) /\
  utc_micro t = utc_micro now + h * 3600 * 1000000.
Proof.
  intros Hh Ht. split.
  - unfold Restart1.configure_restart.
    destruct (Z.ltb_spec h 1); [lia | ].
    eff_unfold. cbn. rewrite (reschedule_jobs_ok now t h _ Ht). reflexivity.
  - rewrite (dt_add_utc now t _ Ht). unfold timedelta_hours. lia.
Qed.

(** C7, where the code departs from the specification. In restart-2 a valid
    reconfiguration that finds the scheduler thread asleep for more than
    the one-second join timeout leaves that thread armed with its old fire
    time and starts a second thread, armed one new interval after the join
    gave up (or not armed at all when the interval is longer than a sleep
    can be): two fire times are armed, and the old thread still sends its
    SIGTERM at the old fire time. *)
Theorem reconfigure_keeps_old_timer (s : Restart2.State) (now h w : Z) (i : nat) :
  1 <= h ->
  Restart2.restart_thread s = Some i ->
  nth_error (Restart2.threads s) i = Some (Restart2.Sleeping w) ->
  now + 1 * Restart2.SECOND < w ->
  exists s',
    Restart2.configure_restart now h s
    = (Ok (Restart2.json_200 (Restart2.CConfigured h (h * 3600)), []), s') /\
    (h <= MAX_SLEEP_HOURS ->
     Restart2.armed s'
     = Restart2.armed s ++ [now + 1 * Restart2.SECOND + h * 3600 * Restart2.SECOND]) /\
    (MAX_SLEEP_HOURS < h -> Restart2.armed s' = Restart2.armed s) /\
    nth_error (Restart2.threads s') i = Some (Restart2.Sleeping w) /\
    Restart2.sent (snd (Restart2.thread_wakes i s'))
    = Restart2.sent s ++ [(w, Restart2.pid s, SIGTERM)].
Proof.
  intros Hh Hr Hn Hw. unfold Restart2.configure_restart.
  destruct (Z.ltb_spec h 1); [lia | ].
  unfold Restart2.join_restart_thread, Restart2.thread_start,
    Restart2.scheduled_restart_task_start. eff_unfold.
  cbn -[Restart2.time_sleep_check].
  rewrite Hr, Hn.
  assert (Hlate : (w <=? now + 1000000) = false)
    by (apply Z.leb_gt; unfold Restart2.SECOND in Hw; lia).
  rewrite Hlate.
  cbn -[Restart2.time_sleep_check]. eexists. split; [reflexivity | ].
  cbn -[Restart2.time_sleep_check].
  set (new := match Restart2.time_sleep_check (h * 3600) with
              | Ok _ => _ | Raise _ => _ end).
  assert (Hn' : nth_error (Restart2.threads s ++ [new]) i = Some (Restart2.Sleeping w)).
  { rewrite nth_error_app1; [exact Hn | ].
    apply nth_error_Some. rewrite Hn. discriminate. }
  split; [ | split; [ | split; [exact Hn' | ] ] ].
  - intros Hin. unfold Restart2.armed. cbn. rewrite armed_of_app. unfold new.
    rewrite time_sleep_check_hours by lia. reflexivity.
  - intros Hout. unfold Restart2.armed. cbn. rewrite armed_of_app. unfold new.
    rewrite (time_sleep_check_too_long h Hout). cbn. apply app_nil_r.
  - unfold Restart2.thread_wakes. eff_unfold.
    cbn [Restart2.threads Restart2.set_threads Restart2.set_restart_thread].
    rewrite Hn'. reflexivity.
Qed.

(** The failing input: started at 0 with the default six hours,
    reconfigured to twelve hours one hour later. *)
Lemma reconfigure_keeps_old_timer_witness :
  let s1 := snd (Restart2.step (Restart2.Startup 0) (Restart2.init 4242 0)) in
  let s2 := snd (Restart2.step (Restart2.Http 3600000000 (post_configure 12)) s1) in
  Restart2.armed s1 = [21600000000] /\
  Restart2.armed s2 = [21600000000; 46801000000] /\
  Restart2.sent (snd (Restart2.step (Restart2.ThreadWakes 0) s2))
  = [(21600000000, 4242, SIGTERM)].
Proof.
  intros s1 s2.
  destruct (reconfigure_keeps_old_timer s1 3600000000 12 21600000000 0)
    as (s' & Hc & Ha & _ & _ & Hs); try reflexivity; try (cbn; lia).
  specialize (Ha ltac:(unfold MAX_SLEEP_HOURS; lia)).
  assert (E : s2 = s').
  { assert (E0 : snd (Restart2.configure_restart 3600000000 12 s1) = s2)
      by reflexivity.
    rewrite Hc in E0. symmetry. exact E0. }
  split; [reflexivity | ]. rewrite E. split.
  - rewrite Ha. reflexivity.
  - cbn [Restart2.step snd]. rewrite Hs. reflexivity.
Defined.

(** * Further properties of the code *)

(** ** Locating and launching the target (restart-3) *)

Lemma first_uvicorn_none (ps : list Restart3.Proc) :
  Restart3.first_uvicorn ps = None <->
  (forall q, In q ps -> Restart3.is_uvicorn q = false).
Proof.
  induction ps as [ | q ps IH]; cbn.
  - split; [intros _ q [] | reflexivity].
  - destruct (Restart3.is_uvicorn q) eqn:Hq.
    + split; [discriminate | ].
      intros H. rewrite (H q (or_introl eq_refl)) in Hq. discriminate.
    + rewrite IH. split.
      * intros H x [<- | Hx]; [exact Hq | now apply H].
      * intros H x Hx. apply H. now right.
Qed.

Lemma first_uvicorn_some (ps : list Restart3.Proc) (p : Z) :
  Restart3.first_uvicorn ps = Some p ->
  exists before q after,
    ps = before ++ q :: after /\ Restart3.p_pid q = p /\
    Restart3.is_uvicorn q = true /\
    (forall x, In x before -> Restart3.is_uvicorn x = false).
Proof.
  induction ps as [ | q ps IH]; cbn; [discriminate | ].
  destruct (Restart3.is_uvicorn q) eqn:Hq.
  - intros [= <-]. exists [], q, ps. repeat split; [exact Hq | intros x []].
  - intros H. destruct (IH H) as (before & q' & after & -> & Hp & Hu & Hb).
    exists (q :: before), q', after. repeat split; try assumption.
    intros x [<- | Hx]; [exact Hq | now apply Hb].
Qed.

Lemma first_uvicorn_app (ps : list Restart3.Proc) (q : Restart3.Proc) :
  Restart3.is_uvicorn q = true ->
  Restart3.first_uvicorn (ps ++ [q])
  = match Restart3.first_uvicorn ps with
    | Some p => Some p
    | None => Some (Restart3.p_pid q)
    end.
Proof.
  intros Hq. induction ps as [ | x ps IH]; cbn.
  - now rewrite Hq.
  - destruct (Restart3.is_uvicorn x); [reflexivity | exact IH].
Qed.

(** X1. [find_fastapi_pid] never raises and only writes to the log. It
    returns [None] exactly when no process has a readable, non-empty
    command line that contains "uvicorn", and otherwise the pid of the
    first such process in enumeration order; a process whose command line
    is unreadable or empty is never selected. *)
Theorem find_fastapi_pid_first_match (s : Restart3.State) :
  exists r s',
    Restart3.find_fastapi_pid s = (Ok r, s') /\
    Restart3.procs s' = Restart3.procs s /\
    Restart3.sent s' = Restart3.sent s /\
    Restart3.spawned s' = Restart3.spawned s /\
    (r = None <-> forall q, In q (Restart3.procs s) -> Restart3.is_uvicorn q = false) /\
    (forall p, r = Some p ->
       exists before q after,
         Restart3.procs s = before ++ q :: after /\ Restart3.p_pid q = p /\
         Restart3.is_uvicorn q = true /\
         (forall x, In x before -> Restart3.is_uvicorn x = false)) /\
    (forall q, Restart3.p_cmdline q = None \/ Restart3.p_cmdline q = Some [] ->
       Restart3.is_uvicorn q = false).
Proof.
  rewrite find_fastapi_pid_run.
  destruct (Restart3.first_uvicorn (Restart3.procs s)) as [p | ] eqn:Hf.
  - exists (Some p), (Restart3.push_log (Restart3.InfoFound p) s).
    repeat split; try discriminate.
    + intros H. apply first_uvicorn_none in H. congruence.
    + intros p' [= <-]. now apply first_uvicorn_some.
    + intros q [H | H]; unfold Restart3.is_uvicorn; now rewrite H.
  - exists None, (Restart3.push_log Restart3.WarnNoProcessFound s).
    repeat split; try discriminate.
    + intros _. now apply first_uvicorn_none.
    + intros q [H | H]; unfold Restart3.is_uvicorn; now rewrite H.
Qed.

Lemma start_fastapi_ok (s : Restart3.State) :
  Restart3.launcher_ok s = true ->
  Restart3.start_fastapi s
  = (Ok tt,
     Restart3.mkState
       (Restart3.procs s ++
          [Restart3.mkProc (Restart3.next_pid s) (Some Restart3.uvicorn_command) true])
       (Restart3.clock s) (Restart3.next_pid s + 1) true (Restart3.next_run s)
       (Restart3.sent s) (Restart3.spawned s ++ [Restart3.next_pid s])
       ((Restart3.log s ++ [Restart3.InfoStarting]) ++ [Restart3.InfoStarted])).
Proof.
  intros H. unfold Restart3.start_fastapi, Restart3.popen, Restart3.logger.
  eff_unfold. cbn. rewrite H. cbn. rewrite H. reflexivity.
Qed.

Lemma start_fastapi_fails (s : Restart3.State) :
  Restart3.launcher_ok s = false ->
  Restart3.start_fastapi s
  = (Ok tt, Restart3.push_log (Restart3.ErrorStarting OSError)
              (Restart3.push_log Restart3.InfoStarting s)).
Proof.
  intros H. unfold Restart3.start_fastapi, Restart3.popen, Restart3.logger.
  eff_unfold. cbn. rewrite H. reflexivity.
Qed.



(** ** One restart by the watchdog (restart-3) *)

Lemma run_pending_returns (h : Z) (env : Restart3.Interference) :
  returns (Restart3.run_pending h env).
Proof.
  intros s. unfold Restart3.run_pending. eff_unfold.
  destruct (Restart3.next_run s) as [t | ]; [ | eexists; reflexivity].
  destruct (t <=? Restart3.clock s); [ | eexists; reflexivity].
  destruct (returns_restart_fastapi env s) as [[] Hr].
  destruct (Restart3.restart_fastapi env s) as [r s']. cbn in Hr. subst r.
  eexists; reflexivity.
Qed.

Lemma loop_returns (h : Z) (envs : list Restart3.Interference) :
  returns (Restart3.schedule_restarts_loop h envs).
Proof.
  induction envs as [ | env envs IH]; intros s; cbn; [eexists; reflexivity | ].
  destruct (run_pending_returns h env s) as [[] Hr].
  unfold Eff.bind at 1.
  destruct (Restart3.run_pending h env s) as [r s1]. cbn in Hr. subst r.
  unfold Eff.bind at 1. cbn. apply IH.
Qed.

(** X3. The watchdog never lets an exception out: [restart_fastapi] returns
    normally whatever happens to the process table while it runs (target
    gone, target not signalable, launch failing), and so do the setup of
    [schedule_restarts] and any number of turns of its loop. *)
Theorem watchdog_never_raises (env : Restart3.Interference) (s : Restart3.State)
    (h : Z) (envs : list Restart3.Interference) :
  fst (Restart3.restart_fastapi env s) = Ok tt /\
  fst (Restart3.schedule_restarts_setup h s) = Ok tt /\
  fst (Restart3.schedule_restarts_loop h envs s) = Ok tt.
Proof.
  split; [ | split].
  - destruct (returns_restart_fastapi env s) as [[] H]. exact H.
  - unfold Restart3.schedule_restarts_setup.
    unfold Eff.bind at 1, Eff.modify at 1.
    unfold Eff.bind at 1, Restart3.logger at 1, Eff.modify at 1.
    unfold Eff.bind at 1. rewrite find_fastapi_pid_run. cbn.
    destruct (Restart3.first_uvicorn (Restart3.procs s)) as [p | ].
    + destruct (negb (Restart3.truthy (Some p))); [ | reflexivity].
      match goal with |- context [Restart3.start_fastapi ?x] =>
        destruct (returns_start_fastapi x) as [[] H] end. exact H.
    + cbn. match goal with |- context [Restart3.start_fastapi ?x] =>
        destruct (returns_start_fastapi x) as [[] H] end. exact H.
  - destruct (loop_returns h envs s) as [[] H]. exact H.
Qed.

(** X4. When the lookup finds no target, [restart_fastapi] sends no signal
    and goes straight to [start_fastapi]: with a working launcher exactly
    one process is launched and it is the one a later lookup finds. *)
Theorem restart_without_target_launches (env : Restart3.Interference) (s : Restart3.State) :
  Restart3.first_uvicorn (Restart3.procs s) = None ->
  exists s',
    Restart3.restart_fastapi env s = (Ok tt, s') /\
    Restart3.sent s' = Restart3.sent s /\
    Restart3.clock s' = Restart3.clock s /\
    (Restart3.launcher_ok s = true ->
       Restart3.spawned s' = Restart3.spawned s ++ [Restart3.next_pid s] /\
       Restart3.first_uvicorn (Restart3.procs s') = Some (Restart3.next_pid s)).
Proof.
  intros Hf. unfold Restart3.restart_fastapi.
  unfold Eff.bind at 1. rewrite find_fastapi_pid_run, Hf.
  unfold Eff.bind at 1, Restart3.logger at 1, Eff.modify at 1.
  set (s0 := Restart3.push_log _ (Restart3.push_log _ s)).
  destruct (Restart3.launcher_ok s) eqn:Hl.
  - rewrite (start_fastapi_ok s0 Hl). eexists. split; [reflexivity | ].
    cbn. repeat split.
    rewrite first_uvicorn_app by reflexivity. now rewrite Hf.
  - rewrite (start_fastapi_fails s0 Hl). eexists. split; [reflexivity | ].
    cbn. repeat split; discriminate.
Qed.

Lemma restart_without_target_launches_witness :
  let s := Restart3.mkState [Restart3.mkProc 7 (Some ["bash"]) true;
                             Restart3.mkProc 8 None false] 0 101 true None [] [] [] in
  Restart3.spawned (snd (Restart3.restart_fastapi Restart3.quiet s)) = [101].
Proof.
  intros s.
  destruct (restart_without_target_launches Restart3.quiet s eq_refl)
    as (s' & H & _ & _ & Hok).
  rewrite H. apply Hok. reflexivity.
Defined.

Lemma try_start_fastapi (h : Exn -> Restart3.M unit) (s : Restart3.State) :
  Eff.try_except Restart3.start_fastapi h s = Restart3.start_fastapi s.
Proof.
  unfold Eff.try_except.
  destruct (returns_start_fastapi s) as [[] H].
  destruct (Restart3.start_fastapi s) as [r s']. cbn in H. subst r. reflexivity.
Qed.

(** What [restart_fastapi] does after a SIGTERM that could be delivered. *)
Lemma restart_fastapi_signalled (env : Restart3.Interference) (s : Restart3.State) (p : Z) :
  Restart3.first_uvicorn (Restart3.procs s) = Some p ->
  p <> 0 ->
  can_signal p (Restart3.before_term env (Restart3.procs s)) = true ->
  Restart3.restart_fastapi env s
  = if has_pid p (Restart3.procs (after_sigterm env p s)) then
      if has_pid p (Restart3.procs (before_sigkill env p s)) then
        if can_signal p (Restart3.procs (before_sigkill env p s)) then
          Restart3.start_fastapi (after_sigkill env p s)
        else
          (Ok tt, Restart3.push_log (Restart3.ErrorDuringRestart PermissionError)
                    (before_sigkill env p s))
      else
        (Ok tt, Restart3.push_log (Restart3.ErrorPidNotFound p) (before_sigkill env p s))
    else Restart3.start_fastapi (after_sigterm env p s).
Proof.
  intros Hf Hp Hc. pose proof (can_signal_has_pid _ _ Hc) as Hh.
  unfold Restart3.restart_fastapi.
  unfold Eff.bind at 1. rewrite find_fastapi_pid_run, Hf.
  unfold Restart3.truthy. apply Z.eqb_neq in Hp. rewrite Hp.
  unfold Restart3.logger at 1. eff_unfold.
  cbn -[Restart3.start_fastapi Restart3.os_kill].
  unfold Restart3.os_kill at 1. eff_unfold.
  unfold Restart3.pid_exists at 1, Restart3.killable at 1.
  cbn -[Restart3.start_fastapi Restart3.os_kill].
  fold (has_pid p (Restart3.before_term env (Restart3.procs s))).
  fold (can_signal p (Restart3.before_term env (Restart3.procs s))).
  rewrite Hh, Hc. cbn -[Restart3.start_fastapi Restart3.os_kill].
  unfold has_pid, can_signal.
  cbn -[Restart3.start_fastapi Restart3.os_kill].
  match goal with |- context [if existsb ?f ?l then _ else _] =>
    destruct (existsb f l) end.
  2:{ cbn -[Restart3.start_fastapi].
      unfold after_sigterm.
      match goal with |- context [Restart3.start_fastapi ?x] =>
        destruct (returns_start_fastapi x) as [[] H];
        destruct (Restart3.start_fastapi x) as [r sx]; cbn in H; subst r;
        reflexivity end. }
  unfold Restart3.os_kill, Restart3.pid_exists, Restart3.killable. eff_unfold.
  cbn -[Restart3.start_fastapi].
  match goal with |- context [negb (existsb ?f ?l)] => destruct (existsb f l) end;
    cbn -[Restart3.start_fastapi]; [ | reflexivity].
  match goal with |- context [negb (existsb ?f ?l)] => destruct (existsb f l) end;
    cbn -[Restart3.start_fastapi]; [ | reflexivity].
  unfold after_sigkill, before_sigkill, after_sigterm.
  cbn -[Restart3.start_fastapi].
  match goal with |- context [Restart3.start_fastapi ?x] =>
    destruct (returns_start_fastapi x) as [[] H];
    destruct (Restart3.start_fastapi x) as [r sx]; cbn in H; subst r;
    reflexivity end.
Qed.





(** X7. A signal that cannot be delivered ends the restart without a
    launch. If the target may not be signalled when SIGTERM is sent,
    nothing is sent; if SIGTERM went out, the target is still there after
    the five seconds, but it is gone or may not be signalled when SIGKILL
    is sent, only SIGTERM was sent. In each case the failure is logged as
    an error, [start_fastapi] is not reached and the call returns
    normally. *)
Theorem undelivered_signal_ends_restart (env : Restart3.Interference)
    (s : Restart3.State) (p : Z) :
  Restart3.first_uvicorn (Restart3.procs s) = Some p ->
  p <> 0 ->
  let ps1 := Restart3.before_term env (Restart3.procs s) in
  let ps2 := Restart3.during_sleep env ps1 in
  let ps3 := Restart3.before_kill env ps2 in
  exists s',
    Restart3.restart_fastapi env s = (Ok tt, s') /\
    (has_pid p ps1 = true -> can_signal p ps1 = false ->
       Restart3.sent s' = Restart3.sent s /\
       Restart3.spawned s' = Restart3.spawned s /\
       Restart3.log s'
       = Restart3.log s ++ [Restart3.InfoFound p; Restart3.InfoRestarting p;
                            Restart3.ErrorDuringRestart PermissionError]) /\
    (can_signal p ps1 = true -> has_pid p ps2 = true -> can_signal p ps3 = false ->
       Restart3.sent s' = Restart3.sent s ++ [(p, SIGTERM)] /\
       Restart3.spawned s' = Restart3.spawned s /\
       existsb Restart3.is_error (Restart3.log s') = true).
Proof.
  intros Hf Hp ps1 ps2 ps3.
  destruct (returns_restart_fastapi env s) as [[] Hr].
  destruct (Restart3.restart_fastapi env s) as [r s'] eqn:E. cbn in Hr. subst r.
  exists s'. split; [reflexivity | ]. split.
  - intros Hh Hc. revert E.
    unfold Restart3.restart_fastapi.
    unfold Eff.bind at 1. rewrite find_fastapi_pid_run, Hf.
    unfold Restart3.truthy. pose proof Hp as Hp'. apply Z.eqb_neq in Hp'. rewrite Hp'.
    unfold Restart3.logger at 1. eff_unfold.
    cbn -[Restart3.start_fastapi Restart3.os_kill].
    unfold Restart3.os_kill at 1. eff_unfold.
    unfold Restart3.pid_exists at 1, Restart3.killable at 1.
    cbn -[Restart3.start_fastapi Restart3.os_kill].
    fold (has_pid p (Restart3.before_term env (Restart3.procs s))).
    fold (can_signal p (Restart3.before_term env (Restart3.procs s))).
    fold ps1. rewrite Hh, Hc. cbn. intros [= <-]. cbn.
    repeat rewrite <- app_assoc. repeat split; reflexivity.
  - intros Hc Hh2 Hc3. revert E.
    rewrite (restart_fastapi_signalled env s p Hf Hp Hc).
    change (Restart3.procs (after_sigterm env p s)) with ps2.
    change (Restart3.procs (before_sigkill env p s)) with ps3.
    rewrite Hh2, Hc3.
    destruct (has_pid p ps3); intros [= <-]; cbn;
      (repeat split; [rewrite existsb_app; cbn; apply orb_true_r]).
Qed.

Lemma undelivered_signal_ends_restart_witness :
  let target := Restart3.mkProc 100 (Some ["uvicorn"; "main:app"]) false in
  let s := Restart3.mkState [target] 0 101 true None [] [] [] in
  Restart3.sent (snd (Restart3.restart_fastapi Restart3.quiet s)) = [] /\
  Restart3.spawned (snd (Restart3.restart_fastapi Restart3.quiet s)) = [].
Proof.
  intros target s.
  destruct (undelivered_signal_ends_restart Restart3.quiet s 100)
    as (s' & H & Hperm & _); try reflexivity; try lia.
  rewrite H. destruct Hperm as (Hs & Hsp & _); try reflexivity.
  split; assumption.
Defined.

(** X22. One run of [restart_fastapi] sends nothing, or SIGTERM, or SIGTERM
    followed by SIGKILL, all to the pid it located; SIGTERM is what it
    sends first whenever that pid is there to be signalled; and SIGKILL is
    sent only if the pid is still in the process table when the
    five-second sleep ends, so a pid that has left the table by then is
    never sent SIGKILL. In restart-1 a scheduled fire sends SIGTERM to its
    own process and nothing after it. *)
Theorem graceful_then_forceful (env : Restart3.Interference) (s : Restart3.State)
    (s1 : Restart1.State) (now : datetime) :
  let at_expiry :=
    Restart3.during_sleep env (Restart3.before_term env (Restart3.procs s)) in
  (exists delta,
     Restart3.sent (snd (Restart3.restart_fastapi env s)) = Restart3.sent s ++ delta /\
     (delta = [] \/
      exists p, Restart3.first_uvicorn (Restart3.procs s) = Some p /\
        (delta = [(p, SIGTERM)] \/ delta = [(p, SIGTERM); (p, SIGKILL)])) /\
     (forall p, Restart3.first_uvicorn (Restart3.procs s) = Some p -> p <> 0 ->
        can_signal p (Restart3.before_term env (Restart3.procs s)) = true ->
        exists rest, delta = (p, SIGTERM) :: rest) /\
     (forall p, In (p, SIGKILL) delta -> has_pid p at_expiry = true) /\
     (forall p, has_pid p at_expiry = false -> ~ In (p, SIGKILL) delta)) /\
  Restart1.sent (snd (Restart1.perform_restart now s1))
  = Restart1.sent s1 ++ [(Restart1.pid s1, SIGTERM)].
Proof.
  intros at_expiry. split; [ | reflexivity ].
  exists (signals_of env (Restart3.procs s)).
  split; [ apply restart_fastapi_sent | ].
  assert (Hkill : forall p, In (p, SIGKILL) (signals_of env (Restart3.procs s)) ->
                            has_pid p at_expiry = true).
  { intros p. unfold signals_of.
    destruct (Restart3.first_uvicorn (Restart3.procs s)) as [p0 | ]; [ | intros []].
    cbv zeta. fold at_expiry.
    destruct (negb (p0 =? 0) && has_pid p0 _ && can_signal p0 _); [ | intros []].
    destruct (has_pid p0 at_expiry) eqn:Ha; cbn [andb].
    - intros [H | H]; [discriminate | ].
      destruct (has_pid p0 _ && can_signal p0 _); [ | destruct H].
      destruct H as [[= <-] | []]. exact Ha.
    - intros [H | []]. discriminate. }
  split; [ | split; [ | split; [exact Hkill | ] ] ].
  - unfold signals_of.
    destruct (Restart3.first_uvicorn (Restart3.procs s)) as [p0 | ]; [ | now left].
    cbv zeta.
    destruct (negb (p0 =? 0) && has_pid p0 _ && can_signal p0 _); [ | now left].
    right. exists p0. split; [reflexivity | ].
    destruct (has_pid p0 _ && has_pid p0 _ && can_signal p0 _); [now right | now left].
  - intros p Hf Hp Hc. unfold signals_of. rewrite Hf. cbv zeta.
    apply Z.eqb_neq in Hp. rewrite Hp, Hc, (can_signal_has_pid _ _ Hc). cbn.
    eexists; reflexivity.
  - intros p Hgone Hin. rewrite (Hkill p Hin) in Hgone. discriminate.
Qed.

Lemma graceful_then_forceful_witness :
  let stubborn := Restart3.mkProc 100 (Some ["uvicorn"; "main:app"]) true in
  let s := Restart3.mkState [stubborn] 0 101 true None [] [] [] in
  Restart3.sent (snd (Restart3.restart_fastapi Restart3.quiet s))
  = [(100, SIGTERM); (100, SIGKILL)] /\
  has_pid 100 (Restart3.procs s) = true.
Proof.
  intros stubborn s.
  destruct (graceful_then_forceful Restart3.quiet s
              (Restart1.init 4242 t_import) t_fire) as ((delta & Hs & _ & _ & Hk & _) & _).
  split; [reflexivity | ].
  apply Hk. rewrite <- (app_nil_l delta).
  change (@nil (Z * Signal)) with (Restart3.sent s).
  rewrite <- Hs. vm_compute. right; left; reflexivity.
Defined.

(** ** The watchdog's loop (restart-3) *)

Lemma idle_turn (h t : Z) (env : Restart3.Interference) (s : Restart3.State) :
  Restart3.next_run s = Some t -> Restart3.clock s < t ->
  (Restart3.run_pending h env ;; Restart3.time_sleep 60 (fun ps => ps))%eff s
  = (Ok tt, Restart3.set_clock (Restart3.clock s + 60) s).
Proof.
  intros Hn Hlt. unfold Restart3.run_pending, Restart3.time_sleep, Restart3.interfere.
  eff_unfold. rewrite Hn. apply Z.leb_gt in Hlt. rewrite Hlt.
  destruct s; reflexivity.
Qed.

Lemma loop_idle (h t : Z) (envs : list Restart3.Interference) (s : Restart3.State) :
  Restart3.next_run s = Some t ->
  Restart3.clock s + 60 * (Z.of_nat (List.length envs) - 1) < t ->
  Restart3.schedule_restarts_loop h envs s
  = (Ok tt, Restart3.set_clock (Restart3.clock s + 60 * Z.of_nat (List.length envs)) s).
Proof.
  revert s. induction envs as [ | env envs IH]; intros s Hn Hlt.
  - cbn. rewrite Z.add_0_r. destruct s; reflexivity.
  - cbn [Restart3.schedule_restarts_loop].
    change (List.length (env :: envs)) with (S (List.length envs)) in *.
    rewrite Nat2Z.inj_succ in *.
    assert (Hc : Restart3.clock s < t) by lia.
    pose proof (idle_turn h t env s Hn Hc) as Ht.
    unfold Eff.bind in Ht |- *.
    destruct (Restart3.run_pending h env s) as [[[] | e] s1].
    + destruct (Restart3.time_sleep 60 (fun ps => ps) s1) as [[[] | e] s2];
        [ | discriminate]. injection Ht as ->.
      rewrite IH; [ | exact Hn | unfold Restart3.set_clock; cbn [Restart3.clock]; lia].
      unfold Restart3.set_clock.
      cbn [Restart3.clock Restart3.procs Restart3.next_pid Restart3.launcher_ok
           Restart3.next_run Restart3.sent Restart3.spawned Restart3.log].
      do 2 f_equal. lia.
    + discriminate.
Qed.

Lemma loop_app (h : Z) (l1 l2 : list Restart3.Interference) (s : Restart3.State) :
  Restart3.schedule_restarts_loop h (l1 ++ l2) s
  = (Restart3.schedule_restarts_loop h l1 ;; Restart3.schedule_restarts_loop h l2)%eff s.
Proof.
  revert s. induction l1 as [ | env l1 IH]; intros s; cbn; [reflexivity | ].
  unfold Eff.bind.
  destruct (Restart3.run_pending h env s) as [[[] | e] s1]; [ | reflexivity].
  destruct (Restart3.time_sleep 60 (fun ps => ps) s1) as [[[] | e] s2]; [ | reflexivity].
  rewrite IH. reflexivity.
Qed.

(** X8. The loop of [schedule_restarts] polls once a minute. As long as the
    job's run time has not been reached at the start of a turn, the turn
    changes nothing but the clock: no lookup, no signal, no launch, no log
    entry. The restart runs in the first turn that starts at or after the
    run time, hence less than sixty seconds late, and the job is then armed
    again one period after the restart ended. *)
Theorem loop_waits_for_run_time (h t : Z) (envs : list Restart3.Interference)
    (env : Restart3.Interference) (s : Restart3.State) :
  Restart3.next_run s = Some t ->
  let n := Z.of_nat (List.length envs) in
  Restart3.clock s + 60 * (n - 1) < t ->
  t <= Restart3.clock s + 60 * n ->
  let due := Restart3.set_clock (Restart3.clock s + 60 * n) s in
  Restart3.schedule_restarts_loop h envs s = (Ok tt, due) /\
  Restart3.clock due < t + 60 /\
  exists s',
    Restart3.restart_fastapi env due = (Ok tt, s') /\
    Restart3.schedule_restarts_loop h (envs ++ [env]) s
    = (Ok tt, Restart3.set_clock (Restart3.clock s' + 60)
                (Restart3.set_next_run (Some (Restart3.clock s' + h * 3600)) s')).
Proof.
  intros Hn n Hlt Hle due.
  pose proof (loop_idle h t envs s Hn Hlt) as Hidle. fold n in Hidle. fold due in Hidle.
  split; [exact Hidle | ].
  assert (Hdue : Restart3.clock due = Restart3.clock s + 60 * n) by reflexivity.
  split; [lia | ].
  destruct (run_pending_rearms h t env due) as (s' & Hr & Hp); [exact Hn | lia | ].
  exists s'. split; [exact Hr | ].
  rewrite loop_app. unfold Eff.bind at 1. rewrite Hidle.
  cbn [Restart3.schedule_restarts_loop]. unfold Eff.bind at 1. rewrite Hp.
  unfold Restart3.time_sleep, Restart3.interfere. eff_unfold.
  destruct s'; reflexivity.
Qed.

Lemma loop_waits_for_run_time_witness :
  let s := Restart3.mkState [] 0 101 true (Some 100) [] [] [] in
  Restart3.schedule_restarts_loop 6 [Restart3.quiet; Restart3.quiet] s
  = (Ok tt, Restart3.set_clock 120 s).
Proof.
  intros s.
  destruct (loop_waits_for_run_time 6 100 [Restart3.quiet; Restart3.quiet]
              Restart3.quiet s) as (H & _);
    [ reflexivity | cbn; lia | cbn; lia | exact H ].
Defined.

(** ** Threads of the interval variant (restart-2) *)

Lemma set_nth_length {A} (i : nat) (x : A) (l : list A) :
  List.length (Restart2.set_nth i x l) = List.length l.
Proof.
  revert i. induction l as [ | y l IH]; intros [ | i]; cbn; try reflexivity.
  now rewrite IH.
Qed.

Lemma armed_of_set_nth (i : nat) (w : Z) (l : list Restart2.ThreadState) :
  nth_error l i = Some (Restart2.Sleeping w) ->
  exists l1 l2,
    l = l1 ++ Restart2.Sleeping w :: l2 /\
    Restart2.set_nth i Restart2.Finished l = l1 ++ Restart2.Finished :: l2 /\
    Restart2.armed_of (Restart2.set_nth i Restart2.Finished l)
    = Restart2.armed_of l1 ++ Restart2.armed_of l2.
Proof.
  revert i. induction l as [ | y l IH]; intros [ | i]; cbn; try discriminate.
  - intros [= ->]. exists [], l. repeat split.
  - intros H. destruct (IH i H) as (l1 & l2 & -> & E & Ea).
    exists (y :: l1), l2. rewrite E. repeat split.
    destruct y; cbn; rewrite armed_of_app; cbn; reflexivity.
Qed.

(** X9. Shutting the application down does not disarm the restart: the
    handler only clears [should_restart], which a sleeping thread does not
    test again, so the thread still sends SIGTERM when its sleep ends. A
    thread started while [should_restart] is false returns at once and
    arms nothing. *)
Theorem shutdown_leaves_timer_armed (s : Restart2.State) (i : nat) (w : Z) :
  nth_error (Restart2.threads s) i = Some (Restart2.Sleeping w) ->
  let s1 := snd (Restart2.shutdown_event s) in
  Restart2.should_restart s1 = false /\
  Restart2.armed s1 = Restart2.armed s /\
  Restart2.sent (snd (Restart2.thread_wakes i s1))
  = Restart2.sent s ++ [(w, Restart2.pid s, SIGTERM)] /\
  Restart2.last_restart_time (snd (Restart2.thread_wakes i s1)) = w /\
  (forall now, Restart2.armed (snd (Restart2.thread_start now s1)) = Restart2.armed s).
Proof.
  intros Hn s1.
  assert (Hn1 : nth_error (Restart2.threads s1) i = Some (Restart2.Sleeping w))
    by exact Hn.
  split; [reflexivity | ]. split; [reflexivity | ].
  rewrite (thread_wakes_sleeping i w s1 Hn1).
  split; [reflexivity | ]. split; [reflexivity | ].
  intros now. rewrite thread_start_run. unfold Restart2.armed. cbn.
  rewrite armed_of_app. cbn. apply app_nil_r.
Qed.

Lemma shutdown_leaves_timer_armed_witness :
  let s := snd (Restart2.startup_event 0 (Restart2.init 4242 0)) in
  Restart2.sent (snd (Restart2.thread_wakes 0 (snd (Restart2.shutdown_event s))))
  = [(21600000000, 4242, SIGTERM)].
Proof.
  intros s.
  destruct (shutdown_leaves_timer_armed s 0 21600000000 eq_refl) as (_ & _ & H & _).
  exact H.
Defined.





(** X23. restart-2 accepts every interval of at least one hour. One that is
    longer than a sleep can be ([MAX_SLEEP_HOURS] hours) is stored and
    answered with status 200 like any other, but the thread started for it
    ends at once in [time.sleep]: the global [restart_thread] then refers
    to a thread that is not alive, and the reconfiguration has armed no
    fire time of its own. *)
Theorem oversized_interval_leaves_no_timer (s : Restart2.State) (now h : Z) :
  MAX_SLEEP_HOURS < h ->
  exists s',
    Restart2.configure_restart now h s
    = (Ok (Restart2.json_200 (Restart2.CConfigured h (h * 3600)), []), s') /\
    Restart2.restart_interval_hours s' = h /\
    Restart2.should_restart s' = true /\
    restart_thread_alive s' = false /\
    (List.length (Restart2.armed s') <= List.length (Restart2.armed s))%nat.
Proof.
  intros Hh. unfold Restart2.configure_restart.
  assert (H1 : 1 <= h) by (unfold MAX_SLEEP_HOURS in Hh; lia).
  destruct (Z.ltb_spec h 1); [lia | ].
  unfold Restart2.join_restart_thread, Restart2.thread_wakes, Restart2.thread_start,
    Restart2.scheduled_restart_task_start.
  eff_unfold. cbn -[Restart2.time_sleep_check].
  assert (Hdead : forall l : list Restart2.ThreadState,
            match nth_error (l ++ [Restart2.Finished]) (List.length l) with
            | Some (Restart2.Sleeping _) => true
            | _ => false
            end = false)
    by (intros l; now rewrite nth_error_last).
  assert (Harmed : forall l : list Restart2.ThreadState,
            Restart2.armed_of (l ++ [Restart2.Finished]) = Restart2.armed_of l)
    by (intros l; rewrite armed_of_app; cbn; apply app_nil_r).
  destruct (Restart2.restart_thread s) as [i | ] eqn:Hr.
  - destruct (nth_error (Restart2.threads s) i) as [[w | ] | ] eqn:Hn.
    + destruct (w <=? now + 1000000); cbn -[Restart2.time_sleep_check].
      * rewrite Hn. cbn -[Restart2.time_sleep_check].
        rewrite (time_sleep_check_too_long h Hh).
        eexists. split; [reflexivity | ].
        unfold restart_thread_alive, Restart2.armed. cbn.
        rewrite Hdead, Harmed.
        destruct (armed_of_set_nth i w _ Hn) as (l1 & l2 & El & _ & Ea).
        rewrite Ea, El, armed_of_app. cbn. rewrite !length_app. cbn.
        repeat split. lia.
      * rewrite (time_sleep_check_too_long h Hh).
        eexists. split; [reflexivity | ].
        unfold restart_thread_alive, Restart2.armed. cbn.
        rewrite Hdead, Harmed. repeat split. lia.
    + cbn -[Restart2.time_sleep_check]. rewrite (time_sleep_check_too_long h Hh).
      eexists. split; [reflexivity | ].
      unfold restart_thread_alive, Restart2.armed. cbn.
      rewrite Hdead, Harmed. repeat split. lia.
    + cbn -[Restart2.time_sleep_check]. rewrite (time_sleep_check_too_long h Hh).
      eexists. split; [reflexivity | ].
      unfold restart_thread_alive, Restart2.armed. cbn.
      rewrite Hdead, Harmed. repeat split. lia.
  - cbn -[Restart2.time_sleep_check]. rewrite (time_sleep_check_too_long h Hh).
    eexists. split; [reflexivity | ].
    unfold restart_thread_alive, Restart2.armed. cbn.
    rewrite Hdead, Harmed. repeat split. lia.
Qed.

Lemma oversized_interval_leaves_no_timer_witness :
  let s := snd (Restart2.startup_event 0 (Restart2.init 4242 0)) in
  let s' := snd (Restart2.configure_restart 21599500000 2562048 s) in
  Restart2.restart_interval_hours s' = 2562048 /\
  restart_thread_alive s' = false.
Proof.
  intros s s'.
  destruct (oversized_interval_leaves_no_timer s 21599500000 2562048)
    as (s1 & H & Hi & _ & Ha & _); [unfold MAX_SLEEP_HOURS; lia | ].
  unfold s'. rewrite H. split; assumption.
Defined.

(** ** Requests and runs of the interval variant (restart-2) *)

(** What a valid reconfiguration does to the signal record and to the
    thread table, whatever the state of the old thread. *)
Lemma configure_restart_valid (s : Restart2.State) (now h : Z) :
  1 <= h ->
  exists s',
    Restart2.configure_restart now h s
    = (Ok (Restart2.json_200 (Restart2.CConfigured h (h * 3600)), []), s') /\
    Restart2.pid s' = Restart2.pid s /\
    refers_to_last_thread s' /\
    (Restart2.sent s' = Restart2.sent s \/
     exists w, Restart2.sent s' = Restart2.sent s ++ [(w, Restart2.pid s, SIGTERM)]).
Proof.
  intros Hh. unfold Restart2.configure_restart.
  destruct (Z.ltb_spec h 1); [lia | ].
  unfold Restart2.join_restart_thread, Restart2.thread_wakes. eff_unfold. cbn.
  destruct (Restart2.restart_thread s) as [i | ] eqn:Hr.
  - destruct (nth_error (Restart2.threads s) i) as [[w | ] | ] eqn:Hn.
    + destruct (w <=? now + 1000000); cbn.
      * rewrite Hn. cbn. eexists. split; [reflexivity | ]. cbn.
        split; [reflexivity | ]. split; [ | right; exists w; reflexivity].
        unfold refers_to_last_thread. cbn. rewrite length_app. cbn. lia.
      * eexists. split; [reflexivity | ]. cbn.
        split; [reflexivity | ]. split; [ | left; reflexivity].
        unfold refers_to_last_thread. cbn. rewrite length_app. cbn. lia.
    + cbn. eexists. split; [reflexivity | ]. cbn.
      split; [reflexivity | ]. split; [ | left; reflexivity].
      unfold refers_to_last_thread. cbn. rewrite length_app. cbn. lia.
    + cbn. eexists. split; [reflexivity | ]. cbn.
      split; [reflexivity | ]. split; [ | left; reflexivity].
      unfold refers_to_last_thread. cbn. rewrite length_app. cbn. lia.
  - cbn. eexists. split; [reflexivity | ]. cbn.
    split; [reflexivity | ]. split; [ | left; reflexivity].
    unfold refers_to_last_thread. cbn. rewrite length_app. cbn. lia.
Qed.

Lemma restart2_route_cases (now : Z) (request : Request) (s : Restart2.State) :
  (exists c body,
     plain_status c /\
     Restart2.route now request s = (Ok (Restart2.mkResponse c body, []), s)) \/
  Restart2.route now request s = Restart2.manual_restart s \/
  (exists h, 1 <= h /\
     Restart2.route now request s = Restart2.configure_restart now h s).
Proof.
  assert (Hro : forall c body (m : Restart2.M (Restart2.Response * list Restart2.Task)),
            plain_status c ->
            m s = (Ok (Restart2.mkResponse c body, []), s) ->
            (exists c body,
               plain_status c /\ m s = (Ok (Restart2.mkResponse c body, []), s)) \/
            m s = Restart2.manual_restart s \/
            (exists h, 1 <= h /\ m s = Restart2.configure_restart now h s)).
  { intros c body m Hc Hm. left. exists c, body. now split. }
  unfold Restart2.route.
  destruct (String.eqb (req_path request) "/").
  { destruct (req_method request); eapply Hro; try reflexivity;
      unfold plain_status; tauto. }
  destruct (String.eqb (req_path request) "/status").
  { destruct (req_method request); eapply Hro; try reflexivity;
      unfold plain_status; tauto. }
  destruct (String.eqb (req_path request) "/admin/restart").
  { destruct (req_method request);
      try (eapply Hro; try reflexivity; unfold plain_status; tauto).
    right; left; reflexivity. }
  destruct (String.eqb (req_path request) "/admin/configure").
  { destruct (req_method request);
      try (eapply Hro; try reflexivity; unfold plain_status; tauto).
    destruct (req_interval_hours request) as [h | ];
      [ | eapply Hro; try reflexivity; unfold plain_status; tauto ].
    destruct (Z.ltb_spec h 1) as [Hlt | Hge].
    - eapply Hro; [ | unfold Restart2.configure_restart;
                      apply Z.ltb_lt in Hlt; rewrite Hlt; reflexivity ].
      unfold plain_status; tauto.
    - right; right. exists h. now split. }
  destruct (existsb _ framework_pages).
  { destruct (req_method request); eapply Hro; try reflexivity;
      unfold plain_status; tauto. }
  destruct (existsb _ slash_redirects); eapply Hro; try reflexivity;
    unfold plain_status; tauto.
Qed.

Lemma restart2_handle_request_effect (now : Z) (request : Request) (s : Restart2.State) :
  exists r s',
    Restart2.handle_request now request s = (Ok r, s') /\
    plain_status (Restart2.status_code r) /\
    Restart2.pid s' = Restart2.pid s /\
    (refers_to_last_thread s -> refers_to_last_thread s') /\
    (Restart2.sent s' = Restart2.sent s \/
     exists t, Restart2.sent s' = Restart2.sent s ++ [(t, Restart2.pid s, SIGTERM)]).
Proof.
  unfold Restart2.handle_request. eff_unfold.
  destruct (restart2_route_cases now request s)
    as [(c & body & Hc & Hr) | [Hr | (h & Hh & Hr)]]; rewrite Hr.
  - cbn. do 2 eexists. split; [reflexivity | ]. cbn.
    split; [exact Hc | ]. split; [reflexivity | ]. split; [tauto | now left].
  - cbn. do 2 eexists. split; [reflexivity | ]. cbn.
    split; [left; reflexivity | ]. split; [reflexivity | ].
    split; [tauto | right; eexists; reflexivity].
  - destruct (configure_restart_valid s now h Hh) as (s' & Hc & Hp & Hi & Hs).
    rewrite Hc. cbn. do 2 eexists. split; [reflexivity | ]. cbn.
    split; [left; reflexivity | ]. split; [exact Hp | ].
    split; [intros _; exact Hi | exact Hs].
Qed.

Lemma restart2_thread_wakes_effect (i : nat) (s : Restart2.State) :
  Restart2.pid (snd (Restart2.thread_wakes i s)) = Restart2.pid s /\
  (refers_to_last_thread s -> refers_to_last_thread (snd (Restart2.thread_wakes i s))) /\
  (Restart2.sent (snd (Restart2.thread_wakes i s)) = Restart2.sent s \/
   exists t, Restart2.sent (snd (Restart2.thread_wakes i s))
             = Restart2.sent s ++ [(t, Restart2.pid s, SIGTERM)]).
Proof.
  destruct (nth_error (Restart2.threads s) i) as [[w | ] | ] eqn:Hn.
  - rewrite (thread_wakes_sleeping i w s Hn). cbn.
    split; [reflexivity | ]. split; [ | right; exists w; reflexivity].
    unfold refers_to_last_thread. cbn. rewrite set_nth_length.
    destruct (Restart2.restart_thread s); [tauto | ].
    intros E. rewrite E in Hn. destruct i; discriminate.
  - unfold Restart2.thread_wakes. eff_unfold. rewrite Hn. cbn.
    split; [reflexivity | ]. split; [tauto | now left].
  - unfold Restart2.thread_wakes. eff_unfold. rewrite Hn. cbn.
    split; [reflexivity | ]. split; [tauto | now left].
Qed.

Lemma restart2_step_effect (e : Restart2.Event) (s : Restart2.State) :
  Restart2.pid (snd (Restart2.step e s)) = Restart2.pid s /\
  (refers_to_last_thread s -> refers_to_last_thread (snd (Restart2.step e s))) /\
  (Restart2.sent (snd (Restart2.step e s)) = Restart2.sent s \/
   exists t, Restart2.sent (snd (Restart2.step e s))
             = Restart2.sent s ++ [(t, Restart2.pid s, SIGTERM)]).
Proof.
  destruct e as [now | | now request | i]; cbn [Restart2.step].
  - cbn. split; [reflexivity | ]. split; [ | now left].
    intros _. unfold refers_to_last_thread. cbn. rewrite length_app. cbn. lia.
  - cbn. split; [reflexivity | ]. split; [tauto | now left].
  - destruct (restart2_handle_request_effect now request s)
      as (r & s' & H & _ & Hp & Hi & Hs).
    rewrite H. cbn. split; [exact Hp | ]. split; [exact Hi | exact Hs].
  - apply restart2_thread_wakes_effect.
Qed.

(** X12. Along every run of restart-2 the global [restart_thread] refers to
    the thread that was started last (and is unset only while no thread was
    ever started): every start, at startup or in a reconfiguration, stores
    the new thread there and nothing else writes it, so a thread replaced
    by a reconfiguration can never be joined or stopped again. *)
Theorem restart_thread_is_last_started (evs : list Restart2.Event) (s : Restart2.State) :
  refers_to_last_thread s ->
  refers_to_last_thread (snd (Restart2.run evs s)).
Proof.
  revert s. induction evs as [ | e evs IH]; intros s H; [exact H | ].
  cbn [Restart2.run].
  destruct (restart2_step_effect e s) as (_ & Hi & _).
  destruct (Restart2.step e s) as [r s1]. cbn in Hi.
  specialize (IH s1 (Hi H)).
  destruct (Restart2.run evs s1) as [rs s2]. exact IH.
Qed.

Lemma restart_thread_is_last_started_witness :
  refers_to_last_thread
    (snd (Restart2.run [Restart2.Startup 0;
                        Restart2.Http 3600000000 (post_configure 12);
                        Restart2.ThreadWakes 0]
            (Restart2.init 4242 0))).
Proof.
  apply (restart_thread_is_last_started _ (Restart2.init 4242 0)). reflexivity.
Defined.


Lemma only_sigterm_to_app (p : Z) (l1 l2 : list (Z * Z * Signal)) :
  only_sigterm_to p l1 -> only_sigterm_to p l2 -> only_sigterm_to p (l1 ++ l2).
Proof. unfold only_sigterm_to. intros H1 H2. apply Forall_app. now split. Qed.

(** X14. Along every run of restart-2 the process keeps its pid and every
    signal it sends is a SIGTERM to itself: no event sends SIGKILL, and no
    other process is ever signalled. *)
Theorem restart2_only_sigterm_to_self (evs : list Restart2.Event) (s : Restart2.State) :
  only_sigterm_to (Restart2.pid s) (Restart2.sent s) ->
  Restart2.pid (snd (Restart2.run evs s)) = Restart2.pid s /\
  only_sigterm_to (Restart2.pid s) (Restart2.sent (snd (Restart2.run evs s))).
Proof.
  revert s. induction evs as [ | e evs IH]; intros s H; [split; [reflexivity | exact H] | ].
  cbn [Restart2.run].
  destruct (restart2_step_effect e s) as (Hp & _ & Hs).
  destruct (Restart2.step e s) as [r s1]. cbn in Hp, Hs.
  assert (H1 : only_sigterm_to (Restart2.pid s1) (Restart2.sent s1)).
  { rewrite Hp. destruct Hs as [-> | [t ->]]; [exact H | ].
    apply only_sigterm_to_app; [exact H | ].
    constructor; [split; reflexivity | constructor]. }
  destruct (IH s1 H1) as [IHp IHs].
  destruct (Restart2.run evs s1) as [rs s2]. cbn in *.
  rewrite IHp, Hp. split; [reflexivity | ]. now rewrite <- Hp.
Qed.

Lemma restart2_only_sigterm_to_self_witness :
  only_sigterm_to 4242
    (Restart2.sent
       (snd (Restart2.run [Restart2.Startup 0;
                           Restart2.Http 60000000 post_restart;
                           Restart2.ThreadWakes 0]
               (Restart2.init 4242 0)))).
Proof.
  apply (restart2_only_sigterm_to_self _ (Restart2.init 4242 0)). constructor.
Defined.

(** ** Runs of the calendar-time variant (restart-1) *)

Lemma restart1_route_cases (now : datetime) (request : Request) (s : Restart1.State) :
  (exists c body,
     Restart1.route now request s = (Ok (Restart1.mkResponse c body, []), s)) \/
  Restart1.route now request s = Restart1.manual_restart s \/
  (exists h, 1 <= h /\
     Restart1.route now request s = Restart1.configure_restart now h s).
Proof.
  assert (Hro : forall c body (m : Restart1.M (Restart1.Response * list Restart1.Task)),
            m s = (Ok (Restart1.mkResponse c body, []), s) ->
            (exists c body, m s = (Ok (Restart1.mkResponse c body, []), s)) \/
            m s = Restart1.manual_restart s \/
            (exists h, 1 <= h /\ m s = Restart1.configure_restart now h s)).
  { intros c body m Hm. left. now exists c, body. }
  unfold Restart1.route.
  destruct (String.eqb (req_path request) "/").
  { destruct (req_method request); eapply Hro; reflexivity. }
  destruct (String.eqb (req_path request) "/status").
  { destruct (req_method request); eapply Hro; reflexivity. }
  destruct (String.eqb (req_path request) "/admin/restart").
  { destruct (req_method request); try (eapply Hro; reflexivity).
    right; left; reflexivity. }
  destruct (String.eqb (req_path request) "/admin/configure").
  { destruct (req_method request); try (eapply Hro; reflexivity).
    destruct (req_interval_hours request) as [h | ]; [ | eapply Hro; reflexivity ].
    destruct (Z.ltb_spec h 1) as [Hlt | Hge].
    - eapply Hro. unfold Restart1.configure_restart.
      apply Z.ltb_lt in Hlt. rewrite Hlt. reflexivity.
    - right; right. exists h. now split. }
  destruct (existsb _ framework_pages).
  { destruct (req_method request); eapply Hro; reflexivity. }
  destruct (existsb _ slash_redirects); eapply Hro; reflexivity.
Qed.

Lemma restart1_configure_valid_cases (now : datetime) (h : Z) (s : Restart1.State) :
  1 <= h ->
  (exists js,
     Restart1.reschedule_jobs now h (Restart1.jobs s) = Ok js /\
     Restart1.configure_restart now h s
     = (Ok (Restart1.json_200 (Restart1.CConfigured h (h * 3600)), []),
        Restart1.set_jobs js (Restart1.set_restart_interval_hours h s))) \/
  (exists e,
     Restart1.reschedule_jobs now h (Restart1.jobs s) = Raise e /\
     Restart1.configure_restart now h s
     = (Raise e, Restart1.set_restart_interval_hours h s)).
Proof.
  intros Hh. unfold Restart1.configure_restart.
  destruct (Z.ltb_spec h 1); [lia | ]. eff_unfold. cbn.
  destruct (Restart1.reschedule_jobs now h (Restart1.jobs s)) as [js | e].
  - left. exists js. split; reflexivity.
  - right. exists e. split; reflexivity.
Qed.

Lemma restart1_handle_request_effect (now : datetime) (request : Request)
    (s : Restart1.State) :
  exists r s',
    Restart1.handle_request now request s = (Ok r, s') /\
    Restart1.pid s' = Restart1.pid s /\
    Restart1.sent s' = Restart1.sent s.
Proof.
  destruct (Restart1.restart_in_progress s) eqn:Hb.
  { rewrite (handle_request_busy now request s Hb). do 2 eexists. repeat split. }
  unfold Restart1.handle_request. eff_unfold.
  rewrite (check_restart_status_idle s request _ Hb).
  destruct (restart1_route_cases now request s)
    as [(c & body & Hr) | [Hr | (h & Hh & Hr)]]; rewrite Hr.
  - cbn. do 2 eexists. repeat split.
  - rewrite manual_restart_run. cbn. do 2 eexists. repeat split.
  - destruct (restart1_configure_valid_cases now h s Hh)
      as [(js & _ & Hc) | (e & _ & Hc)]; rewrite Hc; cbn;
      do 2 eexists; repeat split.
Qed.

Lemma grows_same (s s' : Restart1.State) :
  Restart1.pid s' = Restart1.pid s -> Restart1.sent s' = Restart1.sent s ->
  grows_by_sigterm s s'.
Proof.
  intros Hp Hs. split; [exact Hp | ]. exists O. cbn. now rewrite app_nil_r.
Qed.

Lemma grows_trans (s1 s2 s3 : Restart1.State) :
  grows_by_sigterm s1 s2 -> grows_by_sigterm s2 s3 -> grows_by_sigterm s1 s3.
Proof.
  intros [Hp1 (k1 & Hs1)] [Hp2 (k2 & Hs2)]. split; [congruence | ].
  exists (k1 + k2)%nat. rewrite Hs2, Hs1, Hp1, repeat_app, app_assoc. reflexivity.
Qed.

Lemma after_job_grows (now run_time : datetime) (s : Restart1.State) :
  grows_by_sigterm s (after_job now run_time s).
Proof.
  unfold after_job. destruct (_ <=? Restart1.MISFIRE_GRACE_US).
  - split; [reflexivity | ]. exists 1%nat. reflexivity.
  - apply grows_same; reflexivity.
Qed.

Lemma process_jobs_sent (now : datetime) (js : list Restart1.Job) (s : Restart1.State) :
  grows_by_sigterm s (snd (Restart1.process_jobs now js s)).
Proof.
  revert s. induction js as [ | j js IH]; intros s; cbn.
  - apply grows_same; reflexivity.
  - destruct (dt_ge now (Restart1.next_run_time j)).
    + unfold Eff.bind at 1. rewrite run_job_run.
      set (s1 := after_job now (Restart1.next_run_time j) s).
      pose proof (after_job_grows now (Restart1.next_run_time j) s) as H1. fold s1 in H1.
      specialize (IH s1). unfold Eff.bind.
      destruct (Restart1.process_jobs now js s1) as [[rest | e] s2]; cbn in *.
      * destruct (Restart1.next_fire_time _ _ _); cbn; eapply grows_trans; eassumption.
      * eapply grows_trans; eassumption.
    + specialize (IH s). unfold Eff.bind.
      destruct (Restart1.process_jobs now js s) as [[rest | e] s2]; exact IH.
Qed.

Lemma restart1_step_effect (e : Restart1.Event) (s : Restart1.State) :
  grows_by_sigterm s (snd (Restart1.step e s)).
Proof.
  destruct e as [now | | now request | now]; cbn [Restart1.step].
  - apply grows_same;
      unfold Restart1.startup_event, Restart1.schedule_restart; eff_unfold; cbn;
      destruct (Restart1.next_restart_time _ now); reflexivity.
  - apply grows_same; reflexivity.
  - destruct (restart1_handle_request_effect now request s) as (r & s' & H & Hp & Hs).
    rewrite H. cbn. now apply grows_same.
  - unfold Restart1.scheduler_wakeup. eff_unfold.
    destruct (Restart1.scheduler_running s); [ | apply grows_same; reflexivity].
    pose proof (process_jobs_sent now (Restart1.jobs s) s) as Hj.
    destruct (Restart1.process_jobs now (Restart1.jobs s) s) as [[js | e] s1];
      exact Hj.
Qed.

Lemma restart1_run_effect (evs : list Restart1.Event) (s : Restart1.State) :
  grows_by_sigterm s (snd (Restart1.run evs s)).
Proof.
  revert s. induction evs as [ | e evs IH]; intros s; [apply grows_same; reflexivity | ].
  cbn [Restart1.run].
  pose proof (restart1_step_effect e s) as H1.
  destruct (Restart1.step e s) as [r s1]. cbn in H1.
  specialize (IH s1). destruct (Restart1.run evs s1) as [rs s2]. cbn in *.
  eapply grows_trans; eassumption.
Qed.

(** X15. Along every run of restart-1 the process keeps its pid and all it
    ever sends are SIGTERMs to itself: whatever the order of startups,
    requests, scheduled fires and shutdowns, no SIGKILL is sent and no
    other process is signalled; requests by themselves send nothing. *)
Theorem restart1_only_sigterm_to_self (evs : list Restart1.Event) (s : Restart1.State) :
  Restart1.pid (snd (Restart1.run evs s)) = Restart1.pid s /\
  (exists k,
     Restart1.sent (snd (Restart1.run evs s))
     = Restart1.sent s ++ repeat (Restart1.pid s, SIGTERM) k) /\
  (forall now request,
     Restart1.sent (snd (Restart1.handle_request now request s)) = Restart1.sent s).
Proof.
  destruct (restart1_run_effect evs s) as [Hp Hs].
  split; [exact Hp | ]. split; [exact Hs | ].
  intros now request.
  destruct (restart1_handle_request_effect now request s) as (r & s' & H & _ & Hs').
  rewrite H. exact Hs'.
Qed.

Lemma mixed_run_sends_one_sigterm :
  Restart1.sent
    (snd (Restart1.run [Restart1.Startup t_import;
                        Restart1.Http t_manual post_restart;
                        Restart1.SchedulerWakeup t_fire;
                        Restart1.Http t_fire (post_configure 2)]
            (Restart1.init 4242 t_import)))
  = [(4242, SIGTERM)].
Proof. reflexivity. Qed.

(** ** The calendar-time schedule (restart-1) *)

Lemma dt_ge_utc (a b : datetime) : dt_ge a b = (utc_micro b <=? utc_micro a).
Proof.
  unfold dt_ge. destruct (Z.eqb_spec (tzinfo a) (tzinfo b)) as [E | _]; [ | reflexivity].
  unfold utc_micro. rewrite E. apply eq_true_iff_eq. rewrite !Z.leb_le. lia.
Qed.

(** X21. For a valid time of day [h:m] and a clock reading [now] (before
    the last day [datetime] can represent), [schedule_restart] computes the
    wall-clock time [h:m:00.000000] of [now]'s calendar date, carrying the
    UTC offset [now] carries, when that is strictly after [now], and
    otherwise that time plus one day; the result is strictly after [now],
    depends on [(h:m, now)] only, and is the fire time [schedule_restart]
    arms whatever the rest of the state is. *)
Theorem schedule_restart_fire_time (s : Restart1.State) (now : datetime) :
  dtime_valid (Restart1.default_restart_time s) ->
  dt_valid now -> ordinal now < MAXORDINAL ->
  let t := Restart1.default_restart_time s in
  let today := dt_replace_hm now (t_hour t) (t_minute t) in
  let tomorrow := {| ordinal := ordinal now + 1; hour := t_hour t;
                     minute := t_minute t; second := 0; microsecond := 0;
                     tzinfo := tzinfo now |} in
  exists fire,
    Restart1.next_restart_time t now = Ok fire /\
    (utc_micro now < utc_micro today -> fire = today) /\
    (utc_micro today <= utc_micro now ->
       fire = tomorrow /\ utc_micro fire = utc_micro today + DAY_US) /\
    utc_micro now < utc_micro fire /\
    hour fire = t_hour t /\ minute fire = t_minute t /\
    second fire = 0 /\ microsecond fire = 0 /\
    (forall s', Restart1.default_restart_time s' = t ->
       Restart1.next_restart_time (Restart1.default_restart_time s') now = Ok fire) /\
    Restart1.jobs (snd (Restart1.schedule_restart now s))
    = Restart1.jobs s ++ [Restart1.mkJob (Restart1.DateTrigger fire) fire].
Proof.
  intros Ht Hnow Hmax t today tomorrow.
  assert (Hshift : utc_micro tomorrow = utc_micro today + DAY_US)
    by (unfold utc_micro, naive_micro, DAY_US; cbn; lia).
  assert (Hlate : utc_micro now < utc_micro tomorrow).
  { destruct Hnow as (_ & Hh & Hm & Hs & Hu). destruct Ht as (Hth & Htm).
    fold t in Hth, Htm.
    unfold utc_micro, naive_micro; cbn. lia. }
  destruct (next_restart_time_cases t now Ht Hnow Hmax) as [[Hlt Hn] | [Hle Hn]];
    fold today in Hlt || fold today in Hle; fold today in Hn.
  - exists today.
    repeat split; try reflexivity; try assumption; try lia.
    + intros s' E. rewrite E. exact Hn.
    + apply schedule_restart_jobs. exact Hn.
  - exists tomorrow. change (day_after today) with tomorrow in Hn.
    repeat split; try reflexivity; try assumption; try lia.
    + intros s' E. rewrite E. exact Hn.
    + apply schedule_restart_jobs. exact Hn.
Qed.

Lemma schedule_restart_fire_time_witness :
  exists fire,
    Restart1.next_restart_time {| t_hour := 23; t_minute := 30 |}
      (mkdt 739068 23 45 10 500 3600) = Ok fire /\
    fire = mkdt 739069 23 30 0 0 3600.
Proof.
  destruct (schedule_restart_fire_time
              (Restart1.init 4242 (mkdt 739068 9 0 0 0 3600))
              (mkdt 739068 23 45 10 500 3600))
    as (fire & Hn & _ & Hroll & _).
  - cbn; unfold dtime_valid; cbn; lia.
  - unfold dt_valid, MINORDINAL, MAXORDINAL; cbn; lia.
  - unfold MAXORDINAL; cbn; lia.
  - exists fire. split; [exact Hn | ].
    apply Hroll. unfold utc_micro, naive_micro; cbn. lia.
Defined.

(** X16. The fire time [schedule_restart] computes is never more than one
    day ahead: it lies strictly after [now] and at most 24 hours later, and
    it is a full 24 hours later exactly when [now] is itself [h:m:00]
    sharp. *)
Theorem fire_time_within_a_day (t : dtime) (now : datetime) :
  dtime_valid t -> dt_valid now -> ordinal now < MAXORDINAL ->
  exists fire,
    Restart1.next_restart_time t now = Ok fire /\
    0 < utc_micro fire - utc_micro now <= DAY_US /\
    (utc_micro fire - utc_micro now = DAY_US <->
     hour now = t_hour t /\ minute now = t_minute t /\
     second now = 0 /\ microsecond now = 0).
Proof.
  intros Ht Hnow Hmax.
  destruct (next_restart_time_cases t now Ht Hnow Hmax) as [[Hlt Hn] | [Hle Hn]];
    rewrite Hn; eexists; (split; [reflexivity | ]);
    destruct Hnow as (_ & Hh & Hm & Hs & Hu); destruct Ht as (Hth & Htm);
    revert Hlt || revert Hle;
    unfold utc_micro, naive_micro, DAY_US, day_after, dt_replace_hm; cbn;
    intros Hcmp; (split; [lia | split; [lia | ]]).
  - intros (E1 & E2 & E3 & E4). rewrite E1, E2, E3, E4 in Hcmp. lia.
  - intros (E1 & E2 & E3 & E4). rewrite E1, E2, E3, E4. lia.
Qed.

Lemma fire_time_within_a_day_witness :
  exists fire,
    Restart1.next_restart_time {| t_hour := 23; t_minute := 30 |} t_fire = Ok fire /\
    utc_micro fire - utc_micro t_fire = DAY_US.
Proof.
  destruct (fire_time_within_a_day {| t_hour := 23; t_minute := 30 |} t_fire)
    as (fire & Hn & _ & Hiff).
  - unfold dtime_valid; cbn; lia.
  - unfold dt_valid, MINORDINAL, MAXORDINAL; cbn; lia.
  - unfold MAXORDINAL; cbn; lia.
  - exists fire. split; [exact Hn | ]. apply Hiff. repeat split.
Defined.

Lemma process_jobs_none_due (now : datetime) (js : list Restart1.Job) (s : Restart1.State) :
  forallb (not_due now) js = true ->
  Restart1.process_jobs now js s = (Ok js, s).
Proof.
  induction js as [ | j js IH]; cbn; [reflexivity | ].
  intros H. apply andb_prop in H. destruct H as [Hj Hjs].
  unfold not_due in Hj. apply negb_true_iff in Hj. rewrite Hj.
  unfold Eff.bind. rewrite (IH Hjs). reflexivity.
Qed.

Lemma scheduler_wakeup_none_due (now : datetime) (s : Restart1.State) :
  forallb (not_due now) (Restart1.jobs s) = true ->
  Restart1.scheduler_wakeup now s = (Ok tt, s).
Proof.
  intros H. unfold Restart1.scheduler_wakeup. eff_unfold.
  destruct (Restart1.scheduler_running s); [ | reflexivity].
  rewrite (process_jobs_none_due now _ s H). destruct s; reflexivity.
Qed.

(** X17. Started with an empty scheduler, the application arms exactly one
    job, at the computed fire time, which the root endpoint reports as
    [next_restart]. A scheduler wake-up before that time changes nothing at
    all; a wake-up at that time, within the grace time of one second, sends
    SIGTERM to the process and leaves no job behind. *)
Theorem startup_arms_one_job (s : Restart1.State) (now : datetime) :
  dtime_valid (Restart1.default_restart_time s) ->
  dt_valid now -> ordinal now < MAXORDINAL ->
  Restart1.jobs s = [] ->
  let s1 := snd (Restart1.startup_event now s) in
  exists fire,
    Restart1.jobs s1 = [Restart1.mkJob (Restart1.DateTrigger fire) fire] /\
    Restart1.scheduler_running s1 = true /\
    utc_micro now < utc_micro fire /\
    fst (Restart1.root s1)
    = Ok (Restart1.json_200
            (Restart1.CRoot "FastAPI server running with auto-restart feature"
               (Restart1.pid s) (Restart1.last_restart_time s) (Some fire)), []) /\
    (forall now1, utc_micro now1 < utc_micro fire ->
       Restart1.scheduler_wakeup now1 s1 = (Ok tt, s1)) /\
    (forall now1,
       utc_micro fire <= utc_micro now1 <= utc_micro fire + Restart1.MISFIRE_GRACE_US ->
       Restart1.sent (snd (Restart1.scheduler_wakeup now1 s1))
       = Restart1.sent s ++ [(Restart1.pid s, SIGTERM)] /\
       Restart1.jobs (snd (Restart1.scheduler_wakeup now1 s1)) = []).
Proof.
  intros Ht Hnow Hmax Hj s1.
  assert (Hfire : exists fire,
            Restart1.next_restart_time (Restart1.default_restart_time s) now = Ok fire /\
            utc_micro now < utc_micro fire).
  { destruct (fun H => next_restart_time_cases (Restart1.default_restart_time s) now H Hnow Hmax)
      as [[Hlt Hn] | [Hle Hn]]; [exact Ht | | ].
    - eexists. split; [exact Hn | exact Hlt].
    - eexists. split; [exact Hn | ].
      destruct Hnow as (_ & Hh & Hm & Hs & Hu). destruct Ht as (Hth & Htm).
      unfold utc_micro, naive_micro; cbn. lia. }
  destruct Hfire as (fire & Hn & Hlt). exists fire.
  assert (Es1 : s1 = Restart1.push_log Restart1.SchedulerStarted
                  (Restart1.push_log (Restart1.NextRestartScheduledAt fire)
                     (Restart1.set_jobs [Restart1.mkJob (Restart1.DateTrigger fire) fire]
                        (Restart1.set_scheduler_running true
                           (Restart1.push_log Restart1.ConfiguredDaily
                              (Restart1.push_log
                                 (Restart1.ApplicationStarted (Restart1.pid s)) s)))))).
  { unfold s1, Restart1.startup_event, Restart1.schedule_restart. eff_unfold. cbn.
    rewrite Hn. cbn. rewrite Hj. reflexivity. }
  split; [rewrite Es1; reflexivity | ].
  split; [rewrite Es1; reflexivity | ].
  split; [exact Hlt | ].
  split; [rewrite Es1; reflexivity | ].
  split.
  - intros now1 H1. apply scheduler_wakeup_none_due.
    rewrite Es1. cbn. unfold not_due. cbn. rewrite dt_ge_utc.
    apply Z.leb_gt in H1. rewrite H1. reflexivity.
  - intros now1 [H1 H2].
    assert (Hdue : dt_ge now1 fire = true) by (rewrite dt_ge_utc; now apply Z.leb_le).
    split.
    + rewrite (scheduler_wakeup_single now1 (Restart1.mkJob (Restart1.DateTrigger fire) fire) s1);
        first [ exact Hdue
              | cbn [Restart1.next_run_time]; lia
              | rewrite Es1; reflexivity ].
    + rewrite scheduler_wakeup_date; try (rewrite Es1; reflexivity).
      rewrite Es1. cbn. unfold not_due. cbn. rewrite Hdue. reflexivity.
Qed.

Lemma startup_arms_one_job_witness :
  exists fire,
    Restart1.jobs (snd (Restart1.startup_event t_import (Restart1.init 4242 t_import)))
    = [Restart1.mkJob (Restart1.DateTrigger fire) fire].
Proof.
  destruct (startup_arms_one_job (Restart1.init 4242 t_import) t_import)
    as (fire & Hj & _).
  - unfold dtime_valid; cbn; lia.
  - unfold dt_valid, MINORDINAL, MAXORDINAL; cbn; lia.
  - unfold MAXORDINAL; cbn; lia.
  - reflexivity.
  - exists fire. exact Hj.
Defined.

(** ** Reconfiguring the calendar-time variant (restart-1) *)

(** X18. A valid reconfiguration of restart-1 re-arms every job in place:
    the number of jobs does not change, and each gets an interval trigger
    of [h] hours with its next run exactly [h] hours after the call. *)
Theorem configure_rearms_jobs_in_place (s : Restart1.State) (now t : datetime) (h : Z) :
  1 <= h ->
  dt_add now (timedelta_hours h) = Ok t ->
  exists s',
    Restart1.configure_restart now h s
    = (Ok (Restart1.json_200 (Restart1.CConfigured h (h * 3600)), []), s') /\
    Restart1.restart_interval_hours s' = Some h /\
    List.length (Restart1.jobs s') = List.length (Restart1.jobs s) /\
    (forall j, In j (Restart1.jobs s') ->
       Restart1.trigger j = Restart1.IntervalTrigger (timedelta_hours h) /\
       utc_micro (Restart1.next_run_time j) = utc_micro now + h * 3600 * 1000000) /\
    Restart1.sent s' = Restart1.sent s /\
    Restart1.restart_in_progress s' = Restart1.restart_in_progress s.
Proof.
  intros Hh Ht.
  destruct (restart1_configure_valid_cases now h s Hh)
    as [(js & Hjs & Hc) | (e & Hjs & _)];
    rewrite (reschedule_jobs_ok now t h _ Ht) in Hjs; [ | discriminate].
  injection Hjs as <-. rewrite Hc. eexists. split; [reflexivity | ]. cbn.
  split; [reflexivity | ]. split; [apply length_map | ].
  split; [ | split; reflexivity].
  intros j Hin. apply in_map_iff in Hin. destruct Hin as (j0 & <- & _). cbn.
  split; [reflexivity | ].
  rewrite (dt_add_utc now t _ Ht). unfold timedelta_hours. lia.
Qed.

Lemma configure_rearms_jobs_in_place_witness :
  let s := snd (Restart1.startup_event t_import (Restart1.init 4242 t_import)) in
  Restart1.restart_interval_hours (snd (Restart1.configure_restart t_configure 2 s))
  = Some 2 /\
  List.length (Restart1.jobs (snd (Restart1.configure_restart t_configure 2 s))) = 1%nat.
Proof.
  intros s.
  destruct (configure_rearms_jobs_in_place s t_configure (mkdt 739250 12 0 0 0 0) 2)
    as (s' & H & Hi & Hlen & _); [lia | reflexivity | ].
  rewrite H. split; [exact Hi | exact Hlen].
Defined.

(** X19. A valid interval so large that the new run time falls outside the
    range of [datetime] makes the rescheduling raise while a job is armed:
    the request is answered 500, the jobs keep their old fire times, but
    [restart_interval_hours] has already been overwritten with the
    rejected value. *)
Theorem oversized_interval_is_stored_and_fails (s : Restart1.State) (now : datetime)
    (h : Z) (e : Exn) :
  1 <= h ->
  Restart1.restart_in_progress s = false ->
  Restart1.jobs s <> [] ->
  dt_add now (timedelta_hours h) = Raise e ->
  Restart1.handle_request now (post_configure h) s
  = (Ok (Restart1.mkResponse 500 (Restart1.CDetail "Internal Server Error")),
     Restart1.set_restart_interval_hours h s) /\
  Restart1.jobs (Restart1.set_restart_interval_hours h s) = Restart1.jobs s.
Proof.
  intros Hh Hidle Hjobs Hadd. split; [ | reflexivity].
  assert (Hr : Restart1.reschedule_jobs now h (Restart1.jobs s) = Raise e).
  { destruct (Restart1.jobs s) as [ | j js]; [contradiction | ].
    cbn. unfold Restart1.job_reschedule. rewrite Hadd. reflexivity. }
  destruct (restart1_configure_valid_cases now h s Hh)
    as [(js & Hjs & _) | (e' & Hjs & Hc)]; rewrite Hr in Hjs; [discriminate | ].
  injection Hjs as <-.
  unfold Restart1.handle_request. eff_unfold.
  rewrite (check_restart_status_idle s _ _ Hidle).
  unfold Restart1.route, post_configure; cbn -[Restart1.configure_restart].
  rewrite Hc. reflexivity.
Qed.

Lemma oversized_interval_is_stored_and_fails_witness :
  let s := snd (Restart1.startup_event t_import (Restart1.init 4242 t_import)) in
  Restart1.restart_interval_hours
    (snd (Restart1.handle_request t_configure (post_configure 1000000000) s))
  = Some 1000000000 /\
  Restart1.first_next_run
    (snd (Restart1.handle_request t_configure (post_configure 1000000000) s))
  = Some t_fire.
Proof.
  intros s.
  destruct (oversized_interval_is_stored_and_fails s t_configure 1000000000 OverflowError)
    as (H & _); [lia | reflexivity | discriminate | reflexivity | ].
  rewrite H. split; reflexivity.
Defined.

(** ** Setting the watchdog up (restart-3) *)

(** X20. The setup of [schedule_restarts] arms the job one period after
    the current time and makes sure a target runs: when the lookup finds
    one it launches nothing, when it finds none it launches exactly one
    (given a working launcher); in both cases no signal is sent and a
    later lookup finds a target. *)
Theorem setup_arms_and_ensures_target (h : Z) (s : Restart3.State) :
  Restart3.launcher_ok s = true ->
  (forall p, Restart3.first_uvicorn (Restart3.procs s) = Some p -> p <> 0) ->
  exists s',
    Restart3.schedule_restarts_setup h s = (Ok tt, s') /\
    Restart3.next_run s' = Some (Restart3.clock s + h * 3600) /\
    Restart3.sent s' = Restart3.sent s /\
    Restart3.first_uvicorn (Restart3.procs s') <> None /\
    (Restart3.first_uvicorn (Restart3.procs s) <> None ->
       Restart3.procs s' = Restart3.procs s /\ Restart3.spawned s' = Restart3.spawned s) /\
    (Restart3.first_uvicorn (Restart3.procs s) = None ->
       Restart3.spawned s' = Restart3.spawned s ++ [Restart3.next_pid s] /\
       Restart3.first_uvicorn (Restart3.procs s') = Some (Restart3.next_pid s)).
Proof.
  intros Hl Hp0. unfold Restart3.schedule_restarts_setup.
  unfold Eff.bind at 1, Eff.modify at 1.
  unfold Eff.bind at 1, Restart3.logger at 1, Eff.modify at 1.
  unfold Eff.bind at 1. rewrite find_fastapi_pid_run.
  cbn -[Restart3.start_fastapi].
  destruct (Restart3.first_uvicorn (Restart3.procs s)) as [p | ] eqn:Hf.
  - specialize (Hp0 p eq_refl). apply Z.eqb_neq in Hp0.
    unfold Restart3.truthy. rewrite Hp0. cbn.
    eexists. split; [reflexivity | ]. cbn.
    split; [reflexivity | ]. split; [reflexivity | ].
    split; [rewrite Hf; discriminate | ].
    split; [intros _; split; reflexivity | discriminate].
  - cbn -[Restart3.start_fastapi].
    match goal with |- context [Restart3.start_fastapi ?x] =>
      rewrite (start_fastapi_ok x Hl) end.
    eexists. split; [reflexivity | ]. cbn.
    split; [reflexivity | ]. split; [reflexivity | ].
    rewrite first_uvicorn_app by reflexivity. rewrite Hf.
    split; [discriminate | ]. split; [intros H; now contradiction H | ].
    intros _. split; reflexivity.
Qed.

Lemma setup_arms_and_ensures_target_witness :
  let s := Restart3.mkState [Restart3.mkProc 7 (Some ["bash"]) true] 50 101 true
             None [] [] [] in
  Restart3.next_run (snd (Restart3.schedule_restarts_setup 6 s)) = Some (50 + 6 * 3600) /\
  Restart3.spawned (snd (Restart3.schedule_restarts_setup 6 s)) = [101].
Proof.
  intros s.
  destruct (setup_arms_and_ensures_target 6 s) as (s' & H & Hn & _ & _ & _ & Hnone).
  - reflexivity.
  - intros p Hp. discriminate Hp.
  - rewrite H. split; [exact Hn | ]. apply Hnone. reflexivity.
Defined.
